(** * Facility Map skill: a shallow embedding of [facility_map.py]

    The skill builds a filtered SQL query, fetches the rows through an
    external client, turns the rows into map points, groups the points
    into series, formats a table, asks an external layout engine to
    render the page and composes a one-line summary.

    Python values are embedded as follows.
    - Text is [string]; the text handled here is ASCII, and [upper] and
      [title] are the ASCII behaviour of [str.upper] and [str.title].
    - A cell of the data frame is [None], a [str], an [int], a
      [numpy.int64] or a [float] ([cell]); a float is a [spec_float]
      (sign, mantissa, exponent, with infinities and NaN) together with
      the identity of the float object, an int is a [Z].
    - A dictionary whose order matters is an association list; a key is
      found by identity or by equality, so that a NaN is found only when
      it is the same object.
    - A Python exception is [Raise e] of the type [result].
    - The two external collaborators, the query client and the layout
      engine, are arguments of the skill; what they do is an [outcome].

    Of the [print] calls only the one that can raise is kept: the JSON
    dump of the chart configuration, which does not know [numpy.int64].
    The axis bounds [lon_min], [lon_max], [lat_min], [lat_max] are
    computed from a non-empty list and never used; they are left out. *)

From Stdlib Require Import String Ascii List ZArith NArith Bool Lia.
From Stdlib Require Import DecimalString Permutation Sorted.
From Stdlib.Floats Require Import SpecFloat.
From Stdlib Require DecimalN Finite.
Import ListNotations.

Local Open Scope list_scope.
Local Open Scope string_scope.

#[local] Set Default Proof Using "Type".

(** ** Text *)

Module PyStr.

Definition is_lower (c : ascii) : bool :=
  (97 <=? N_of_ascii c)%N && (N_of_ascii c <=? 122)%N.

Definition is_upper (c : ascii) : bool :=
  (65 <=? N_of_ascii c)%N && (N_of_ascii c <=? 90)%N.

Definition to_upper (c : ascii) : ascii :=
  if is_lower c then ascii_of_N (N_of_ascii c - 32) else c.

Definition to_lower (c : ascii) : ascii :=
  if is_upper c then ascii_of_N (N_of_ascii c + 32) else c.

(** [s.upper()] *)
Fixpoint upper (s : string) : string :=
  match s with
  | EmptyString => EmptyString
  | String c s' => String (to_upper c) (upper s')
  end.

(** [s.title()]: a cased character that follows an uncased one is
    upper-cased, a cased character that follows a cased one is
    lower-cased. *)
Fixpoint title_from (prev_cased : bool) (s : string) : string :=
  match s with
  | EmptyString => EmptyString
  | String c s' =>
      if is_lower c then
        String (if prev_cased then c else to_upper c) (title_from true s')
      else if is_upper c then
        String (if prev_cased then to_lower c else c) (title_from true s')
      else String c (title_from false s')
  end.

Definition title (s : string) : string := title_from false s.

(** [s.replace(a, b)] for one-character [a] and [b] *)
Fixpoint replace (a b : ascii) (s : string) : string :=
  match s with
  | EmptyString => EmptyString
  | String c s' => String (if Ascii.eqb c a then b else c) (replace a b s')
  end.

(** [sep.join(l)] *)
Fixpoint join (sep : string) (l : list string) : string :=
  match l with
  | [] => EmptyString
  | [x] => x
  | x :: rest => x ++ sep ++ join sep rest
  end.

(** [str(n)] for a non-negative int *)
Definition of_N (n : N) : string := NilEmpty.string_of_uint (N.to_uint n).

Definition of_nat (n : nat) : string := of_N (N.of_nat n).

(** [str(z)] for an int *)
Definition of_Z (z : Z) : string :=
  match z with
  | Zneg p => "-" ++ of_N (Npos p)
  | _ => of_N (Z.to_N z)
  end.

End PyStr.

(** ** Exceptions *)

Inductive exn : Type :=
| KeyError (key : string)
| TypeError
| ValueError
| OverflowError
| AttributeError
| Exception (msg : string).

Inductive result (A : Type) : Type :=
| Ok (a : A)
| Raise (e : exn).

Arguments Ok {A} a.
Arguments Raise {A} e.

Definition bind {A B : Type} (r : result A) (k : A -> result B) : result B :=
  match r with
  | Ok a => k a
  | Raise e => Raise e
  end.

Notation "x <- r ;; k" := (bind r (fun x => k))
  (at level 61, r at next level, right associativity).

(** A [for] loop that builds a list with [append], stopping at the first
    exception. *)
Fixpoint map_result {A B : Type} (f : A -> result B) (l : list A)
  : result (list B) :=
  match l with
  | [] => Ok []
  | a :: rest =>
      b <- f a ;;
      bs <- map_result f rest ;;
      Ok (b :: bs)
  end.

(** ** Cells *)

(** [PFloat f obj] is the float object number [obj], of value [f]: two
    cells with the same [obj] are one object.  [PInt64] is a
    [numpy.int64], which [iterrows] yields from a frame whose columns
    are all integers; a frame of mixed columns yields [int] and
    [float]. *)
Inductive cell : Type :=
| PNone
| PStr (s : string)
| PInt (z : Z)
| PFloat (f : spec_float) (obj : nat)
| PInt64 (z : Z).

(** [numpy.nan], the object that pandas stores for a missing entry. *)
Definition np_nan : cell := PFloat S754_nan 0.

(** [pd.notna(x)] on a scalar *)
Definition notna (c : cell) : bool :=
  match c with
  | PNone => false
  | PFloat S754_nan _ => false
  | _ => true
  end.

(** *** Floats *)

(** [float(z)] for an int: the nearest binary64 number, ties to even;
    an int beyond the range of binary64 raises [OverflowError]. *)
Definition float_of_int (z : Z) : result spec_float :=
  match binary_normalize 53 1024 z 0 false with
  | S754_infinity _ => Raise OverflowError
  | f => Ok f
  end.

(** The integer nearest to [m * 2^e], ties to even: what the format
    specification [.0f] prints of a finite float. *)
Definition round_half_even (m : positive) (e : Z) : N :=
  match e with
  | Zneg p =>
      let d := N.shiftl 1 (Npos p) in
      let q := (Npos m / d)%N in
      let r := (Npos m mod d)%N in
      match (2 * r ?= d)%N with
      | Lt => q
      | Gt => (q + 1)%N
      | Eq => if N.even q then q else (q + 1)%N
      end
  | _ => N.shiftl (Npos m) (Z.to_N e)
  end.

(** The grouping option [,] of a format specification: a comma before
    every group of three digits, counted from the right.  [commas_rev]
    works on the digits in reverse order. *)
Fixpoint commas_rev (ds : list ascii) : list ascii :=
  match ds with
  | a :: b :: c :: ((_ :: _) as rest) =>
      a :: b :: c :: ","%char :: commas_rev rest
  | _ => ds
  end.

Definition group3 (digits : string) : string :=
  string_of_list_ascii (rev (commas_rev (rev (list_ascii_of_string digits)))).

Definition sign_prefix (s : bool) : string := if s then "-" else EmptyString.

(** [format(f, ',.0f')] for a float *)
Definition format_comma_0f (f : spec_float) : string :=
  match f with
  | S754_zero s => sign_prefix s ++ "0"
  | S754_infinity s => sign_prefix s ++ "inf"
  | S754_nan => "nan"
  | S754_finite s m e => sign_prefix s ++ group3 (PyStr.of_N (round_half_even m e))
  end.

(** [f"{c:,.0f}"] for a cell: an int is converted to float first, a str
    does not know the format code [f]. *)
Definition format_cell_comma_0f (c : cell) : result string :=
  match c with
  | PFloat f _ => Ok (format_comma_0f f)
  | PInt z | PInt64 z => f <- float_of_int z ;; Ok (format_comma_0f f)
  | PStr _ => Raise ValueError
  | PNone => Raise TypeError
  end.

(** *** Dictionary keys

    A [dict] finds a key by [is] or [==].  On the cells this is equality
    of the canonical form [dict_key]: numbers are equal when their exact
    values are ([1 == 1.0], [0.0 == -0.0]); a NaN is equal to nothing,
    itself included, so that it is found by identity alone: two NaN
    cells are one key only when they are one object. *)

Inductive dict_key : Type :=
| KNone
| KStr (s : string)
| KNum (m : Z) (e : Z)    (* m * 2^e, with m odd, or m = 0 and e = 0 *)
| KInf (s : bool)
| KNaN (obj : nat).

Fixpoint strip_twos (m : positive) (e : Z) : positive * Z :=
  match m with
  | xO m' => strip_twos m' (e + 1)
  | _ => (m, e)
  end.

Definition key_of_dyadic (s : bool) (m : positive) (e : Z) : dict_key :=
  let '(m', e') := strip_twos m e in
  KNum (if s then Zneg m' else Zpos m') e'.

Definition key_of (c : cell) : dict_key :=
  match c with
  | PNone => KNone
  | PStr s => KStr s
  | PInt Z0 | PInt64 Z0 => KNum 0 0
  | PInt (Zpos p) | PInt64 (Zpos p) => key_of_dyadic false p 0
  | PInt (Zneg p) | PInt64 (Zneg p) => key_of_dyadic true p 0
  | PFloat (S754_zero _) _ => KNum 0 0
  | PFloat (S754_infinity s) _ => KInf s
  | PFloat S754_nan obj => KNaN obj
  | PFloat (S754_finite s m e) _ => key_of_dyadic s m e
  end.

Definition dict_key_eq_dec (a b : dict_key) : {a = b} + {a <> b}.
Proof.
  decide equality; auto using string_dec, Z.eq_dec, bool_dec, Nat.eq_dec.
Defined.

Definition key_eqb (a b : cell) : bool :=
  if dict_key_eq_dec (key_of a) (key_of b) then true else false.

(** A [dict] with cell keys, in insertion order. *)
Section CellDict.
Context {V : Type}.

Fixpoint cd_get (d : list (cell * V)) (k : cell) : option V :=
  match d with
  | [] => None
  | (k', v) :: rest => if key_eqb k' k then Some v else cd_get rest k
  end.

(** [k in d] *)
Definition cd_mem (d : list (cell * V)) (k : cell) : bool :=
  match cd_get d k with Some _ => true | None => false end.

(** [d[k] = v] for a key that is not in [d] *)
Definition cd_add (d : list (cell * V)) (k : cell) (v : V) : list (cell * V) :=
  (d ++ [(k, v)])%list.

(** in-place update of the object stored under [k] *)
Fixpoint cd_update (d : list (cell * V)) (k : cell) (f : V -> V)
  : list (cell * V) :=
  match d with
  | [] => []
  | (k', v) :: rest =>
      if key_eqb k' k then (k', f v) :: rest
      else (k', v) :: cd_update rest k f
  end.
End CellDict.

(** A [dict] with [str] keys, in insertion order. *)
Fixpoint dict_get {V : Type} (d : list (string * V)) (k : string) : option V :=
  match d with
  | [] => None
  | (k', v) :: rest => if String.eqb k' k then Some v else dict_get rest k
  end.

(** [d.get(k, default)] *)
Definition dict_get_default {V : Type} (d : list (string * V)) (k : string)
  (default : V) : V :=
  match dict_get d k with Some v => v | None => default end.

(** ** The data frame

    A frame has column labels and rows of cells; a row shorter than the
    labels is padded with [numpy.nan], as pandas does.  Column labels are unique
    (they are the projection of one SELECT). *)

Record DataFrame : Type := { columns : list string; data : list (list cell) }.

(** One row, as [iterrows] yields it: a pandas Series indexed by the
    column labels. *)
Record Row : Type := { index : list string; values : list cell }.

Definition iterrows (df : DataFrame) : list Row :=
  map (fun vs => {| index := columns df; values := vs |}) (data df).

(** [len(df)] *)
Definition len (df : DataFrame) : nat := length (data df).

Fixpoint lookup (idx : list string) (vals : list cell) (key : string)
  : option cell :=
  match idx with
  | [] => None
  | k :: idx' =>
      if String.eqb k key then Some (hd np_nan vals)
      else lookup idx' (tl vals) key
  end.

(** [row.get(key, default)] *)
Definition row_get (row : Row) (key : string) (default : cell) : cell :=
  match lookup (index row) (values row) key with
  | Some c => c
  | None => default
  end.

(** [row[key]] *)
Definition row_getitem (row : Row) (key : string) : result cell :=
  match lookup (index row) (values row) key with
  | Some c => Ok c
  | None => Raise (KeyError key)
  end.

(** [key in df.columns] *)
Definition has_column (df : DataFrame) (key : string) : bool :=
  existsb (String.eqb key) (columns df).

(** [df[key]]: the cells of one column, top to bottom *)
Definition column (df : DataFrame) (key : string) : list cell :=
  map (fun r => row_get r key np_nan) (iterrows df).

(** [k in l], with the equality of dict keys *)
Definition mem_key (k : cell) (l : list cell) : bool := existsb (key_eqb k) l.

(** First occurrences, in order: the keys of a dict filled from [l]. *)
Definition distinct (l : list cell) : list cell :=
  fold_left (fun seen c => if mem_key c seen then seen else (seen ++ [c])%list)
            l [].

Definition count_key (k : cell) (l : list cell) : nat :=
  length (filter (key_eqb k) l).

(** Insertion of an entry in front of a list that is sorted by
    descending count: the entry goes behind the entries of a greater
    count and before those of an equal or smaller count, so that the
    sort is stable. *)
Fixpoint insert_desc (x : cell * nat) (l : list (cell * nat))
  : list (cell * nat) :=
  match l with
  | [] => [x]
  | y :: rest =>
      if (snd y <=? snd x)%nat then x :: y :: rest
      else y :: insert_desc x rest
  end.

Fixpoint sort_desc (l : list (cell * nat)) : list (cell * nat) :=
  match l with
  | [] => []
  | x :: rest => insert_desc x (sort_desc rest)
  end.

(** [series.value_counts().to_dict()]: the missing entries are dropped,
    each remaining value is counted, and the tally is sorted by
    descending count; equal counts keep the order of first occurrence. *)
Definition value_counts (col : list cell) : list (cell * nat) :=
  let present := filter notna col in
  sort_desc (map (fun k => (k, count_key k present)) (distinct present)).

(** ** The invocation and the result of the skill *)

(** The value under ['val'] of a filter: a list, or anything else. *)
Inductive filter_val : Type :=
| ValList (vs : list cell)
| ValOther (c : cell).

(** One entry of [other_filters]: a dict, in which the keys ['dim'] and
    ['val'] are present or not, or something that is not a dict. *)
Inductive filter_item : Type :=
| NotDict (c : cell)
| FilterDict (dim : option cell) (val : option filter_val).

Record SkillInput : Type :=
  { other_filters : option (list filter_item);
    color_by : option string }.

Record SkillVisualization : Type := { title : string; layout : string }.

Record SkillOutput : Type :=
  { final_prompt : string;
    narrative : option string;
    visualizations : list SkillVisualization }.

(** What [client.data.execute_sql_query] returns: an object on which the
    attributes [success], [df] and [error] are present or not.  [df] is
    a frame, or [None]. *)
Record QueryResult : Type :=
  { success : option bool;
    df : option (option DataFrame);
    error : option string }.

(** A tree of dicts, lists and scalars: the layout that goes to the
    layout engine. *)
#[warnings="-register-all"] Inductive pyobj : Type :=
| OCell (c : cell)
| OBool (b : bool)
| OList (l : list pyobj)
| ODict (d : list (string * pyobj))
| OFloat (f : spec_float).

Definition OStr (s : string) : pyobj := OCell (PStr s).
Definition ONat (n : nat) : pyobj := OCell (PInt (Z.of_nat n)).

(** [json.dumps] writes None, str, int, float and bool; a
    [numpy.int64] makes it raise [TypeError]. *)
Definition json_ok (c : cell) : bool :=
  match c with
  | PInt64 _ => false
  | _ => true
  end.

Fixpoint serialisable (o : pyobj) : bool :=
  match o with
  | OCell c => json_ok c
  | OBool _ | OFloat _ => true
  | OList l => forallb serialisable l
  | ODict d => forallb (fun item => serialisable (snd item)) d
  end.

(** [json.dumps(o, indent=2)]; the text goes to [print] only. *)
Definition json_dumps (o : pyobj) : result unit :=
  if serialisable o then Ok tt else Raise TypeError.

Definition nl : string := String (ascii_of_nat 10) EmptyString.

(** The double quote, for text that contains one. *)
Definition dq : string := String (ascii_of_nat 34) EmptyString.

(** [hasattr(obj, name)], on an attribute that is present or not *)
Definition hasattr {A : Type} (attribute : option A) : bool :=
  match attribute with Some _ => true | None => false end.

Module Point.
(** An entry of [map_points]. *)
Record t : Type :=
  { name : cell;
    lat : spec_float;
    lon : spec_float;
    color : string;
    building_use : cell;
    building_type : cell;
    city : cell;
    state : cell;
    address : cell;
    own_lease : cell;
    square_feet : cell }.
End Point.

Module Datum.
(** An entry of the ['data'] list of a series. *)
Record t : Type :=
  { x : spec_float;
    y : spec_float;
    z : Z;
    name : cell;
    city : cell;
    state : cell;
    building_type : cell;
    building_use : cell;
    own_lease : cell;
    square_feet : cell }.
End Datum.

Module Series.
(** A value of [series_by_color]. *)
Record t : Type :=
  { name : cell;
    color : string;
    data : list Datum.t }.
End Series.

Module TableRow.
(** An entry of [table_rows]. *)
Record t : Type :=
  { name : cell;
    city : cell;
    state : cell;
    type : cell;
    use : cell;
    ownership : cell;
    sq_ft : string }.
End TableRow.

(** The palettes, [color_maps]. *)
Definition color_maps : list (string * list (string * string)) :=
  [ ("building_use",
      [ ("AMBULATORY", "#3b82f6");
        ("ADMIN", "#10b981");
        ("ACUTE", "#ef4444");
        ("default", "#6b7280") ]);
    ("own_lease",
      [ ("OWN", "#3b82f6");
        ("LEASE", "#f59e0b");
        ("OWN - CONDO", "#10b981");
        ("default", "#6b7280") ]);
    ("building_type",
      [ ("MULTI STORY", "#3b82f6");
        ("SINGLE STORY", "#10b981");
        ("default", "#6b7280") ]);
    ("state",
      [ ("MA", "#3b82f6");
        ("NH", "#10b981");
        ("default", "#6b7280") ]) ].

Definition building_use_colors : list (string * string) :=
  dict_get_default color_maps "building_use" [].

(** [colors = color_maps.get(color_by, color_maps["building_use"])] *)
Definition colors_for (color_by : string) : list (string * string) :=
  dict_get_default color_maps color_by building_use_colors.

Definition sql_base : string :=
  nl ++
  "    SELECT" ++ nl ++
  "        BUILDING_NAME," ++ nl ++
  "        BUILDING_TYPE," ++ nl ++
  "        BUILDING_USE," ++ nl ++
  "        CITY," ++ nl ++
  "        STATE," ++ nl ++
  "        FULL_ADDRESS," ++ nl ++
  "        LATITUDE," ++ nl ++
  "        LONGITUDE," ++ nl ++
  "        OWN_LEASE," ++ nl ++
  "        SQUARE_FEET," ++ nl ++
  "        YEAR_BUILT" ++ nl ++
  "    FROM facility_map" ++ nl ++
  "    WHERE LATITUDE IS NOT NULL AND LONGITUDE IS NOT NULL" ++ nl ++
  "    ".

(** [x or default] on the two parameters *)
Definition filters_of (parameters : SkillInput) : list filter_item :=
  match other_filters parameters with
  | Some l => l
  | None => []
  end.

Definition color_by_of (parameters : SkillInput) : string :=
  match color_by parameters with
  | Some EmptyString | None => "building_use"
  | Some s => s
  end.

(** ** The skill *)

(** What a call into an external collaborator does: it returns, or it
    raises an exception [e], of which only [str(e)] is used. *)
Inductive outcome (A : Type) : Type :=
| Returns (a : A)
| Raises (msg : string).

Arguments Returns {A} a.
Arguments Raises {A} msg.

(** [client.data.execute_sql_query(database_id, sql_query, row_limit)] *)
Definition Client : Type := string -> string -> nat -> outcome QueryResult.

Section Skill.

(** Two builtins of Python are taken as they are: [repr] of a float
    and [float] of a str ([None] when the text is not a number). *)
Variable float_repr : spec_float -> string.
Variable float_of_string : string -> option spec_float.

(** [os.getenv('DATABASE_ID', ...)] *)
Variable DATABASE_ID : string.

(** [str(c)] *)
Definition py_str (c : cell) : string :=
  match c with
  | PNone => "None"
  | PStr s => s
  | PInt z | PInt64 z => PyStr.of_Z z
  | PFloat f _ => float_repr f
  end.

(** [float(c)] *)
Definition py_float (c : cell) : result spec_float :=
  match c with
  | PNone => Raise TypeError
  | PStr s =>
      match float_of_string s with
      | Some f => Ok f
      | None => Raise ValueError
      end
  | PInt z | PInt64 z => float_of_int z
  | PFloat f _ => Ok f
  end.

(** *** Query builder *)

(** The body of the loop over [filters]. *)
Definition add_filter (sql_query : string) (filter_item : filter_item)
  : string :=
  match filter_item with
  | FilterDict (Some dim) (Some values) =>
      match values with
      | ValList vs =>
          let values_str :=
            PyStr.join "', '" (map (fun v => PyStr.upper (py_str v)) vs) in
          sql_query ++ " AND UPPER(" ++ py_str dim ++ ") IN ('"
            ++ values_str ++ "')"
      | ValOther _ => sql_query
      end
  | _ => sql_query
  end.

Definition build_query (filters : list filter_item) : string :=
  fold_left add_filter filters sql_base.

(** *** Data fetcher: the [try] block *)

Definition fetch (AnswerRocketClient : outcome Client) (sql_query : string)
  : result DataFrame :=
  match AnswerRocketClient with
  | Raises msg => Raise (Exception msg)
  | Returns execute_sql_query =>
      match execute_sql_query DATABASE_ID sql_query 1000%nat with
      | Raises msg => Raise (Exception msg)
      | Returns result =>
          match success result with
          | None => Raise AttributeError
          | Some ok =>
              if negb ok || negb (hasattr (df result)) then
                let error_msg :=
                  match error result with
                  | Some e => e
                  | None => "Unknown error"
                  end in
                Raise (Exception ("Query failed: " ++ error_msg))
              else
                match df result with
                | Some (Some frame) => Ok frame
                | _ => Raise TypeError   (* [len(None)] *)
                end
          end
      end
  end.

(** *** Color classifier and map points *)

Definition marker_color_of (color_by : string) (row : Row) : string :=
  let colors := colors_for color_by in
  let color_value :=
    PyStr.upper (py_str (row_get row (PyStr.upper color_by) (PStr EmptyString))) in
  dict_get_default colors color_value
    (dict_get_default colors "default" "#6b7280").

Definition map_point (color_by : string) (row : Row) : result Point.t :=
  let marker_color := marker_color_of color_by row in
  let name := row_get row "BUILDING_NAME" (PStr "Unknown") in
  latitude <- row_getitem row "LATITUDE" ;;
  lat <- py_float latitude ;;
  longitude <- row_getitem row "LONGITUDE" ;;
  lon <- py_float longitude ;;
  Ok {| Point.name := name;
        Point.lat := lat;
        Point.lon := lon;
        Point.color := marker_color;
        Point.building_use := row_get row "BUILDING_USE" (PStr EmptyString);
        Point.building_type := row_get row "BUILDING_TYPE" (PStr EmptyString);
        Point.city := row_get row "CITY" (PStr EmptyString);
        Point.state := row_get row "STATE" (PStr EmptyString);
        Point.address := row_get row "FULL_ADDRESS" (PStr EmptyString);
        Point.own_lease := row_get row "OWN_LEASE" (PStr EmptyString);
        Point.square_feet := row_get row "SQUARE_FEET" (PInt 0) |}.

Definition build_map_points (color_by : string) (df : DataFrame)
  : result (list Point.t) :=
  map_result (map_point color_by) (iterrows df).

(** *** Legend *)

Definition legend_items (colors : list (string * string)) : list string :=
  map (fun '(key, color) =>
         "<span style=" ++ dq
           ++ "display:inline-block;width:12px;height:12px;background:"
           ++ color ++ ";border-radius:50%;margin-right:6px;" ++ dq
           ++ "></span>" ++ key)
      (filter (fun '(key, _) => negb (String.eqb key "default")) colors).

Definition legend_html (colors : list (string * string)) : string :=
  PyStr.join " &nbsp;&nbsp; " (legend_items colors).

(** *** Point series aggregator *)

Definition datum_of (point : Point.t) : Datum.t :=
  {| Datum.x := Point.lon point;
     Datum.y := Point.lat point;
     Datum.z := 10;
     Datum.name := Point.name point;
     Datum.city := Point.city point;
     Datum.state := Point.state point;
     Datum.building_type := Point.building_type point;
     Datum.building_use := Point.building_use point;
     Datum.own_lease := Point.own_lease point;
     Datum.square_feet := Point.square_feet point |}.

Definition append_datum (d : Datum.t) (s : Series.t) : Series.t :=
  {| Series.name := Series.name s;
     Series.color := Series.color s;
     Series.data := (Series.data s ++ [d])%list |}.

(** The body of the loop over [map_points]. *)
Definition add_point (series_by_color : list (cell * Series.t))
  (point : Point.t) : list (cell * Series.t) :=
  let color := Point.color point in
  let use := Point.building_use point in
  let series_by_color :=
    if negb (cd_mem series_by_color use) then
      cd_add series_by_color use
        {| Series.name := use; Series.color := color; Series.data := [] |}
    else series_by_color in
  cd_update series_by_color use (append_datum (datum_of point)).

Definition group_series (map_points : list Point.t)
  : list (cell * Series.t) :=
  fold_left add_point map_points [].

(** [bubble_series = list(series_by_color.values())] *)
Definition bubble_series (series_by_color : list (cell * Series.t))
  : list Series.t :=
  map snd series_by_color.

(** *** Chart configuration *)

Definition map_series_point (p : Datum.t) : pyobj :=
  ODict
    [ ("name", OCell (Datum.name p));
      ("lat", OFloat (Datum.y p));
      ("lon", OFloat (Datum.x p));
      ("city", OCell (Datum.city p));
      ("state", OCell (Datum.state p));
      ("building_type", OCell (Datum.building_type p));
      ("building_use", OCell (Datum.building_use p));
      ("own_lease", OCell (Datum.own_lease p));
      ("square_feet", OCell (Datum.square_feet p)) ].

Definition map_series (item : cell * Series.t) : pyobj :=
  let '(use, series_data) := item in
  ODict
    [ ("type", OStr "mappoint");
      ("name", OCell use);
      ("color", OStr (Series.color series_data));
      ("data", OList (map map_series_point (Series.data series_data)));
      ("marker",
        ODict
          [ ("radius", ONat 8);
            ("lineWidth", ONat 2);
            ("lineColor", OStr "#ffffff") ]) ].

Definition map_series_data (series_by_color : list (cell * Series.t))
  : list pyobj :=
  map map_series series_by_color.

Definition map_config (map_series_data : list pyobj) : pyobj :=
  ODict
    [ ("chart",
        ODict [ ("type", OStr "map"); ("map", OStr "countries/us/us-all") ]);
      ("title", ODict [ ("text", OStr EmptyString) ]);
      ("mapNavigation",
        ODict
          [ ("enabled", OBool true);
            ("enableMouseWheelZoom", OBool true);
            ("enableDoubleClickZoom", OBool true);
            ("buttonOptions", ODict [ ("verticalAlign", OStr "bottom") ]) ]);
      ("drilldown",
        ODict
          [ ("activeDataLabelStyle",
              ODict
                [ ("color", OStr "#FFFFFF");
                  ("textDecoration", OStr "none");
                  ("textOutline", OStr "1px #000000") ]);
            ("drillUpButton",
              ODict
                [ ("relativeTo", OStr "spacingBox");
                  ("position", ODict [ ("x", ONat 0); ("y", ONat 60) ]) ]) ]);
      ("tooltip",
        ODict
          [ ("useHTML", OBool true);
            ("headerFormat", OStr EmptyString);
            ("pointFormat",
              OStr ("<b>{point.name}</b><br/>{point.city}, {point.state}"
                    ++ "<br/>Type: {point.building_type}"
                    ++ "<br/>Use: {point.building_use}"
                    ++ "<br/>Ownership: {point.own_lease}"
                    ++ "<br/>Sq Ft: {point.square_feet:,.0f}")) ]);
      ("legend",
        ODict
          [ ("enabled", OBool true);
            ("align", OStr "right");
            ("verticalAlign", OStr "top");
            ("layout", OStr "vertical") ]);
      ("credits", ODict [ ("enabled", OBool false) ]);
      ("series",
        OList
          (ODict
             [ ("name", OStr "US States");
               ("borderColor", OStr "#A0A0A0");
               ("nullColor", OStr "rgba(200, 200, 200, 0.3)");
               ("showInLegend", OBool false) ]
           :: map_series_data)) ].

(** *** Table builder *)

Definition table_row (row : Row) : result TableRow.t :=
  let sq_ft := row_get row "SQUARE_FEET" (PInt 0) in
  sq_ft_str <- (if notna sq_ft then format_cell_comma_0f sq_ft
                else Ok "N/A") ;;
  Ok {| TableRow.name := row_get row "BUILDING_NAME" (PStr EmptyString);
        TableRow.city := row_get row "CITY" (PStr EmptyString);
        TableRow.state := row_get row "STATE" (PStr EmptyString);
        TableRow.type := row_get row "BUILDING_TYPE" (PStr EmptyString);
        TableRow.use := row_get row "BUILDING_USE" (PStr EmptyString);
        TableRow.ownership := row_get row "OWN_LEASE" (PStr EmptyString);
        TableRow.sq_ft := sq_ft_str |}.

Definition build_table_rows (df : DataFrame) : result (list TableRow.t) :=
  map_result table_row (iterrows df).

(** *** Layout assembler *)

(** One header cell of the table; [extra] is what the style of the
    last column adds. *)
Definition th (name text : string) (extra : list (string * pyobj)) : pyobj :=
  ODict
    [ ("name", OStr name);
      ("type", OStr "Paragraph");
      ("children", OStr EmptyString);
      ("text", OStr text);
      ("parentId", OStr "FacilityTable");
      ("style",
        ODict
          ([ ("padding", OStr "12px");
             ("fontWeight", OStr "bold");
             ("backgroundColor", OStr "#f8fafc");
             ("borderBottom", OStr "2px solid #e2e8f0") ] ++ extra)%list) ].

(** One body cell of the table. *)
Definition td (name : string) (i : nat) (text : pyobj) (bg_color : string)
  (extra : list (string * pyobj)) : pyobj :=
  let border_style := "1px solid #e2e8f0" in
  ODict
    [ ("name", OStr (name ++ PyStr.of_nat i));
      ("type", OStr "Paragraph");
      ("children", OStr EmptyString);
      ("text", text);
      ("parentId", OStr "FacilityTable");
      ("style",
        ODict
          ([ ("padding", OStr "10px 12px");
             ("backgroundColor", OStr bg_color);
             ("borderBottom", OStr border_style);
             ("fontSize", OStr "14px") ] ++ extra)%list) ].

Definition right_aligned : list (string * pyobj) :=
  [ ("textAlign", OStr "right") ].

(** The body of the loop over [enumerate(table_rows)]: the seven cells
    that one row adds to the children. *)
Definition table_cells (i : nat) (row : TableRow.t) : list pyobj :=
  let bg_color := if Nat.even i then "#ffffff" else "#f8fafc" in
  [ td "TD_Name_" i (OCell (TableRow.name row)) bg_color [];
    td "TD_City_" i (OCell (TableRow.city row)) bg_color [];
    td "TD_State_" i (OCell (TableRow.state row)) bg_color [];
    td "TD_Type_" i (OCell (TableRow.type row)) bg_color [];
    td "TD_Use_" i (OCell (TableRow.use row)) bg_color [];
    td "TD_Ownership_" i (OCell (TableRow.ownership row)) bg_color [];
    td "TD_SqFt_" i (OStr (TableRow.sq_ft row)) bg_color right_aligned ].

Fixpoint extend_rows (i : nat) (table_rows : list TableRow.t) : list pyobj :=
  match table_rows with
  | [] => []
  | row :: rest => (table_cells i row ++ extend_rows (S i) rest)%list
  end.

Definition layout_of (df : DataFrame) (color_by : string)
  (map_config : pyobj) (table_rows : list TableRow.t) : pyobj :=
  ODict
    [ ("layoutJson",
        ODict
          [ ("type", OStr "Document");
            ("style",
              ODict
                [ ("padding", OStr "20px");
                  ("fontFamily",
                    OStr "system-ui, -apple-system, sans-serif") ]);
            ("children",
              OList
                ([ ODict
                     [ ("name", OStr "Header");
                       ("type", OStr "Paragraph");
                       ("text",
                         OStr ("Facility Locations ("
                               ++ PyStr.of_nat (len df) ++ " facilities)"));
                       ("style",
                         ODict
                           [ ("fontSize", OStr "24px");
                             ("fontWeight", OStr "bold");
                             ("marginBottom", OStr "10px");
                             ("color", OStr "#1e293b") ]) ];
                   ODict
                     [ ("name", OStr "Legend");
                       ("type", OStr "Paragraph");
                       ("text",
                         OStr ("Color by "
                               ++ PyStr.title
                                    (PyStr.replace "_" " " color_by)
                               ++ ": "
                               ++ legend_html (colors_for color_by)));
                       ("style",
                         ODict
                           [ ("fontSize", OStr "14px");
                             ("marginBottom", OStr "20px");
                             ("color", OStr "#64748b") ]) ];
                   ODict
                     [ ("name", OStr "FacilityMapChart");
                       ("type", OStr "HighchartsChart");
                       ("children", OStr EmptyString);
                       ("minHeight", OStr "450px");
                       ("options", map_config);
                       ("extraStyles",
                         OStr "border-radius: 8px; margin-bottom: 20px;") ];
                   ODict
                     [ ("name", OStr "TableHeader");
                       ("type", OStr "Paragraph");
                       ("text", OStr "Facility Details");
                       ("style",
                         ODict
                           [ ("fontSize", OStr "18px");
                             ("fontWeight", OStr "bold");
                             ("marginBottom", OStr "15px");
                             ("color", OStr "#1e293b") ]) ];
                   ODict
                     [ ("name", OStr "FacilityTable");
                       ("type", OStr "FlexContainer");
                       ("children", OStr EmptyString);
                       ("direction", OStr "column");
                       ("extraStyles",
                         OStr ("display: grid; grid-template-columns: "
                               ++ "2fr 1fr 0.5fr 1fr 1fr 1fr 1fr; gap: 0; "
                               ++ "border: 1px solid #e2e8f0; "
                               ++ "border-radius: 8px; overflow: hidden;")) ];
                   th "TH_Name" "Building Name" [];
                   th "TH_City" "City" [];
                   th "TH_State" "State" [];
                   th "TH_Type" "Type" [];
                   th "TH_Use" "Use" [];
                   th "TH_Ownership" "Ownership" [];
                   th "TH_SqFt" "Sq Ft" right_aligned ]
                 ++ extend_rows 0 table_rows)%list) ]);
      ("inputVariables", OList []) ].

(** *** Summary composer *)

Definition use_summary (use_counts : list (cell * nat)) : string :=
  PyStr.join ", "
    (map (fun '(use, count) => PyStr.of_nat count ++ " " ++ py_str use)
         use_counts).

Definition summary_of (df : DataFrame) : string :=
  let summary := "Showing " ++ PyStr.of_nat (len df)
                 ++ " facilities on the map. " in
  if has_column df "BUILDING_USE" then
    let use_counts := value_counts (column df "BUILDING_USE") in
    summary ++ "By use: " ++ use_summary use_counts ++ "."
  else summary.

(** *** The skill function *)

(** The [try] block around the layout engine. *)
Definition render (wire_layout : pyobj -> pyobj -> outcome string)
  (layout : pyobj) : string :=
  match wire_layout layout (ODict []) with
  | Returns html => html
  | Raises e => "<div>Error rendering layout: " ++ e ++ "</div>"
  end.

Definition fetch_failed : SkillOutput :=
  {| final_prompt := "Failed to retrieve facility data.";
     narrative := Some "Error loading facility data.";
     visualizations := [] |}.

Definition no_facilities : SkillOutput :=
  {| final_prompt := "No facilities found matching the criteria.";
     narrative := Some "No facility data available.";
     visualizations := [] |}.

(** Everything between the empty-frame test and the layout engine;
    it touches no external collaborator.  The chart configuration is
    dumped as JSON for a debugging [print] before the table is
    built. *)
Definition transform (color_by : string) (df : DataFrame)
  : result (list (cell * Series.t) * pyobj * list TableRow.t * pyobj) :=
  map_points <- build_map_points color_by df ;;
  let series_by_color := group_series map_points in
  let map_config := map_config (map_series_data series_by_color) in
  dumped <- json_dumps map_config ;;
  table_rows <- build_table_rows df ;;
  Ok (series_by_color, map_config, table_rows,
      layout_of df color_by map_config table_rows).

Definition facility_map (AnswerRocketClient : outcome Client)
  (wire_layout : pyobj -> pyobj -> outcome string)
  (parameters : SkillInput) : result SkillOutput :=
  let filters := filters_of parameters in
  let color_by := color_by_of parameters in
  let sql_query := build_query filters in
  match fetch AnswerRocketClient sql_query with
  | Raise _ => Ok fetch_failed
  | Ok df =>
      if (len df =? 0)%nat then Ok no_facilities
      else
        match transform color_by df with
        | Raise e => Raise e
        | Ok (_, _, _, layout) =>
            let html := render wire_layout layout in
            let summary := summary_of df in
            Ok {| final_prompt := summary;
                  narrative := None;
                  visualizations :=
                    [ {| title := "Facility Map"; layout := html |} ] |}
        end
  end.

(** ** Specification-side definitions *)

Definition same_use (use : cell) (p : Point.t) : bool :=
  key_eqb use (Point.building_use p).

(** The series of one building-use value, read off the whole point
    list: the color of the first point of that use, and the data of all
    its points in order. *)
Definition series_for (map_points : list Point.t) (use : cell) : Series.t :=
  {| Series.name := use;
     Series.color :=
       match find (same_use use) map_points with
       | Some p => Point.color p
       | None => EmptyString
       end;
     Series.data := map datum_of (filter (same_use use) map_points) |}.

Definition grouped (map_points : list Point.t) : list (cell * Series.t) :=
  map (fun use => (use, series_for map_points use))
      (distinct (map Point.building_use map_points)).

Definition building_use_of (row : Row) : cell :=
  row_get row "BUILDING_USE" (PStr EmptyString).

(** What of a series does not depend on the colors. *)
Definition uncolored (item : cell * Series.t) : cell * cell * list Datum.t :=
  (fst item, Series.name (snd item), Series.data (snd item)).

(** [obj[key]] on a dict of the layout tree *)
Definition obj_get (obj : pyobj) (key : string) : option pyobj :=
  match obj with
  | ODict d => dict_get d key
  | _ => None
  end.

(** The label and the color of every series, in order. *)
Definition series_colors (series : list (cell * Series.t))
  : list (cell * string) :=
  map (fun item => (fst item, Series.color (snd item))) series.

(** The text that one filter adds to the query: one [UPPER(dim) IN (...)]
    clause for a filter that has ['dim'] and a list under ['val'], and
    nothing for any other entry. *)
Definition filter_clause (f : filter_item) : string :=
  match f with
  | FilterDict (Some dim) (Some (ValList vs)) =>
      " AND UPPER(" ++ py_str dim ++ ") IN ('"
        ++ PyStr.join "', '" (map (fun v => PyStr.upper (py_str v)) vs) ++ "')"
  | _ => EmptyString
  end.

Definition has_list_val (f : filter_item) : bool :=
  match f with
  | FilterDict (Some _) (Some (ValList _)) => true
  | _ => false
  end.

Definition has_nonempty_list_val (f : filter_item) : bool :=
  match f with
  | FilterDict (Some _) (Some (ValList (_ :: _))) => true
  | _ => false
  end.

(** The clauses that a filter list adds, one entry per clause. *)
Definition clauses (filters : list filter_item) : list string :=
  filter (fun c => negb (String.eqb c EmptyString)) (map filter_clause filters).



(** A decimal digit. *)
Definition is_digit (c : ascii) : bool :=
  (48 <=? N_of_ascii c)%N && (N_of_ascii c <=? 57)%N.

(** The text without its commas. *)
Definition strip_commas (s : string) : string :=
  string_of_list_ascii
    (filter (fun c => negb (Ascii.eqb c ","%char)) (list_ascii_of_string s)).

(** [row.get('SQUARE_FEET')] without a default: the cell, when the row
    has the key. *)
Definition square_feet_cell (row : Row) : option cell :=
  lookup (index row) (values row) "SQUARE_FEET".

(** [float(c)] returns. *)
Definition converts (c : cell) : bool :=
  match py_float c with Ok _ => true | Raise _ => false end.

(** The cell is missing, or [f"{c:,.0f}"] returns: a float, or an int in
    the range of float. *)
Definition formats (c : cell) : bool :=
  match c with
  | PNone | PFloat _ _ => true
  | PInt z | PInt64 z =>
      match float_of_int z with Ok _ => true | Raise _ => false end
  | PStr _ => false
  end.

(** The cells of a row that reach the chart configuration. *)
Definition chart_cells (row : Row) : list cell :=
  [ row_get row "BUILDING_NAME" (PStr "Unknown");
    row_get row "CITY" (PStr EmptyString);
    row_get row "STATE" (PStr EmptyString);
    row_get row "BUILDING_TYPE" (PStr EmptyString);
    row_get row "BUILDING_USE" (PStr EmptyString);
    row_get row "OWN_LEASE" (PStr EmptyString);
    row_get row "SQUARE_FEET" (PInt 0) ].

(** The cells of a map point that reach the chart configuration. *)
Definition point_cells (p : Point.t) : list cell :=
  [ Point.name p; Point.city p; Point.state p; Point.building_type p;
    Point.building_use p; Point.own_lease p; Point.square_feet p ].

Definition point_json_ok (p : Point.t) : bool :=
  forallb json_ok (point_cells p).

(** A row that the transformation accepts: LATITUDE and LONGITUDE are
    there and convert to float, the cells that reach the chart can be
    dumped as JSON, and SQUARE_FEET, when it is there and not missing,
    is a float or an int in the range of float. *)
Definition row_ok (row : Row) : bool :=
  match lookup (index row) (values row) "LATITUDE",
        lookup (index row) (values row) "LONGITUDE" with
  | Some latitude, Some longitude =>
      converts latitude && converts longitude
      && forallb json_ok (chart_cells row)
      && formats (row_get row "SQUARE_FEET" (PInt 0))
  | _, _ => false
  end.

Definition frame_ok (df : DataFrame) : bool := forallb row_ok (iterrows df).

(** The layout that an invocation hands to the layout engine. *)
Definition layout_for (color_by : string) (df : DataFrame) : result pyobj :=
  match transform color_by df with
  | Ok (_, _, _, layout) => Ok layout
  | Raise e => Raise e
  end.





(** ** Content and identity

    Two fetches of the same rows give frames of the same content: the
    cells are equal as values, but the float objects are not the same
    objects.  [erase] forgets which object a float is. *)

Definition erase (c : cell) : cell :=
  match c with
  | PFloat f _ => PFloat f 0
  | _ => c
  end.

Definition is_nan (c : cell) : bool :=
  match c with
  | PFloat S754_nan _ => true
  | _ => false
  end.

(** A dict key without the identity of a NaN. *)
Definition forget_object (k : dict_key) : dict_key :=
  match k with
  | KNaN _ => KNaN 0
  | _ => k
  end.

(** The value of a cell, as a table of values counts it: equal values
    are one value, and every NaN is the one value NaN. *)
Definition value_of (c : cell) : dict_key := key_of (erase c).

Definition value_eqb (a b : cell) : bool :=
  if dict_key_eq_dec (value_of a) (value_of b) then true else false.

Definition distinct_values (l : list cell) : list dict_key :=
  nodup dict_key_eq_dec (map value_of l).














(** ** Example data

    Frames, clients and layout engines on which the statements below
    are evaluated. *)

Definition example_columns : list string :=
  [ "BUILDING_NAME"; "BUILDING_TYPE"; "BUILDING_USE"; "CITY"; "STATE";
    "FULL_ADDRESS"; "LATITUDE"; "LONGITUDE"; "OWN_LEASE"; "SQUARE_FEET";
    "YEAR_BUILT" ].

(** 42.5 and -71.0 *)
Definition example_latitude : cell := PFloat (S754_finite false 85 (-1)) 1.
Definition example_longitude : cell := PFloat (S754_finite true 71 0) 2.

Definition facility (name use state : string) (square_feet : cell)
  : list cell :=
  [ PStr name; PStr "MULTI STORY"; PStr use; PStr "Boston"; PStr state;
    PStr "1 Main St"; example_latitude; example_longitude; PStr "OWN";
    square_feet; PInt 1990 ].

(** Three records with the building uses ACUTE, ACUTE, ADMIN; the two
    ACUTE records are in different states, and the second has no
    square footage. *)
Definition scenario_D : DataFrame :=
  {| columns := example_columns;
     data :=
       [ facility "North Clinic" "ACUTE" "MA"
           (PFloat (binary_normalize 53 1024 12345 0 false) 3);
         facility "South Clinic" "ACUTE" "NH" PNone;
         facility "Head Office" "ADMIN" "MA" (PInt 1000000) ] |}.

(** Two records, both of building use ACUTE. *)
Definition scenario_C : DataFrame :=
  {| columns := example_columns;
     data :=
       [ facility "North Clinic" "ACUTE" "MA" (PInt 52000);
         facility "South Clinic" "ACUTE" "NH" np_nan ] |}.

(** A frame without rows. *)
Definition empty_frame : DataFrame :=
  {| columns := example_columns; data := [] |}.

(** A client that cannot be built, and one whose query reports a
    failure. *)
Definition broken_client : outcome Client := Raises "connection refused".

Definition failing_client : outcome Client :=
  Returns (fun _ _ _ =>
             Returns {| success := Some false;
                        df := None;
                        error := Some "syntax error" |}).

(** A frame whose column labels came back in lower case. *)
Definition lower_case_frame : DataFrame :=
  {| columns := [ "building_name"; "latitude"; "longitude" ];
     data := [ [ PStr "North Clinic"; example_latitude; example_longitude ] ] |}.

(** A frame whose SQUARE_FEET column is text. *)
Definition text_square_feet_frame : DataFrame :=
  {| columns := example_columns;
     data := [ facility "North Clinic" "ACUTE" "MA" (PStr "12,345") ] |}.

(** A row of a frame that has no SQUARE_FEET column. *)
Definition no_square_feet_row : Row :=
  {| index := [ "BUILDING_NAME"; "LATITUDE"; "LONGITUDE" ];
     values := [ PStr "North Clinic"; example_latitude; example_longitude ] |}.

(** A client whose query succeeds with the given frame. *)
Definition client_of (frame : DataFrame) : outcome Client :=
  Returns (fun _ _ _ =>
             Returns {| success := Some true;
                        df := Some (Some frame);
                        error := None |}).


(** A layout engine that raises, and one that returns. *)
Definition failing_layout (layout variables : pyobj) : outcome string :=
  Raises "boom".

Definition blank_layout (layout variables : pyobj) : outcome string :=
  Returns "<html></html>".

Definition default_parameters : SkillInput :=
  {| other_filters := None; color_by := None |}.

(** The examples print no finite float and parse no text, so these two
    stand for [repr] and [float] on them. *)
Definition example_repr (f : spec_float) : string :=
  match f with
  | S754_zero s => sign_prefix s ++ "0.0"
  | S754_infinity s => sign_prefix s ++ "inf"
  | S754_nan => "nan"
  | S754_finite s _ _ => sign_prefix s ++ "?"
  end.

Definition example_parse (s : string) : option spec_float := None.

Definition example_database : string := "3ECBF711-29B5-4C1E-9575-208621747E04".

(** The value of a result that is known to be [Ok]. *)
Definition get_ok {A : Type} (default : A) (r : result A) : A :=
  match r with
  | Ok a => a
  | Raise _ => default
  end.


Definition empty_list_filter : list filter_item :=
  [ FilterDict (Some (PStr "STATE")) (Some (ValList [])) ].

(** Proofs start by dropping the builtins that the statement does not
    mention. *)
Ltac tidy :=
  try clear DATABASE_ID; try clear float_of_string; try clear float_repr.

(** ** Readers of the results

    What the statements below read off the layout tree, the palettes
    and the filters. *)

Definition obj_list (o : option pyobj) : list pyobj :=
  match o with
  | Some (OList l) => l
  | _ => []
  end.

(** [layout["layoutJson"]["children"]] *)
Definition layout_children (layout_json : pyobj) : list pyobj :=
  match obj_get layout_json "layoutJson" with
  | Some document => obj_list (obj_get document "children")
  | None => []
  end.

(** [node["name"]], when it is a str *)
Definition obj_name (node : pyobj) : option string :=
  match obj_get node "name" with
  | Some (OCell (PStr s)) => Some s
  | _ => None
  end.

(** [map_config["series"]] and [series["data"]] *)
Definition chart_series (chart : pyobj) : list pyobj :=
  obj_list (obj_get chart "series").

Definition series_points (series : pyobj) : list pyobj :=
  obj_list (obj_get series "data").

(** The entries of a palette that the legend shows. *)
Definition legend_entries (colors : list (string * string))
  : list (string * string) :=
  filter (fun '(key, _) => negb (String.eqb key "default")) colors.

(** The upper-cased text of the cell that colors a row. *)
Definition color_value_of (color_by : string) (row : Row) : string :=
  PyStr.upper (py_str (row_get row (PyStr.upper color_by) (PStr EmptyString))).

(** A filter with the str values of its list in upper case. *)
Definition upper_cell (c : cell) : cell :=
  match c with
  | PStr s => PStr (PyStr.upper s)
  | _ => c
  end.

Definition upper_filter (f : filter_item) : filter_item :=
  match f with
  | FilterDict dim (Some (ValList vs)) =>
      FilterDict dim (Some (ValList (map upper_cell vs)))
  | _ => f
  end.

(** The seven names of the cells that row [i] adds to the layout. *)
Definition td_prefixes : list string :=
  [ "TD_Name_"; "TD_City_"; "TD_State_"; "TD_Type_"; "TD_Use_";
    "TD_Ownership_"; "TD_SqFt_" ].

(** The names of the twelve nodes that every layout starts with. *)
Definition fixed_names : list string :=
  [ "Header"; "Legend"; "FacilityMapChart"; "TableHeader"; "FacilityTable";
    "TH_Name"; "TH_City"; "TH_State"; "TH_Type"; "TH_Use"; "TH_Ownership";
    "TH_SqFt" ].

(** A frame whose only column is the building name. *)
Definition names_only_frame : DataFrame :=
  {| columns := [ "BUILDING_NAME" ];
     data := [ [ PStr "North Clinic" ]; [ PStr "South Clinic" ] ] |}.

(** Scenario D without its BUILDING_USE column. *)
Definition no_use_frame : DataFrame :=
  {| columns := [ "BUILDING_NAME"; "LATITUDE"; "LONGITUDE" ];
     data :=
       [ [ PStr "North Clinic"; example_latitude; example_longitude ];
         [ PStr "South Clinic"; example_latitude; example_longitude ] ] |}.

(** Scenario D with a second row that has no latitude. *)
Definition bad_second_row_frame : DataFrame :=
  {| columns := example_columns;
     data :=
       [ facility "North Clinic" "ACUTE" "MA" (PInt 52000);
         [ PStr "South Clinic"; PStr "MULTI STORY"; PStr "ACUTE";
           PStr "Boston"; PStr "NH"; PStr "2 Main St"; PNone;
           example_longitude; PStr "OWN"; PStr "n/a"; PInt 1990 ] ] |}.

(** [node["style"]["backgroundColor"]] *)
Definition background_of (node : pyobj) : option pyobj :=
  match obj_get node "style" with
  | Some style => obj_get style "backgroundColor"
  | None => None
  end.

(** The names of the cells of the rows [i], [i + 1], ... of the table. *)
Fixpoint td_names (i n : nat) : list string :=
  match n with
  | O => []
  | S n' => (map (fun prefix => (prefix ++ PyStr.of_nat i)%string) td_prefixes
             ++ td_names (S i) n')%list
  end.

(** Scenario C with both building uses missing. *)
Definition missing_use_frame : DataFrame :=
  {| columns := [ "BUILDING_USE"; "LATITUDE"; "LONGITUDE" ];
     data :=
       [ [ PNone; example_latitude; example_longitude ];
         [ np_nan; example_latitude; example_longitude ] ] |}.

(** A record of the example frames with any cell for its building
    use. *)
Definition facility_of_use (name : string) (use : cell) (state : string)
  : list cell :=
  [ PStr name; PStr "MULTI STORY"; use; PStr "Boston"; PStr state;
    PStr "1 Main St"; example_latitude; example_longitude; PStr "OWN";
    PInt 52000; PInt 1990 ].

(** Two records in MA and NH without a building use: in the first frame
    the two NaN are two float objects, as the cells of a float column
    are; in the second they are one object. *)
Definition nan_uses_apart : DataFrame :=
  {| columns := example_columns;
     data :=
       [ facility_of_use "North Clinic" (PFloat S754_nan 7) "MA";
         facility_of_use "South Clinic" (PFloat S754_nan 8) "NH" ] |}.



(** A frame whose square footage is a [numpy.int64]. *)
Definition int64_square_feet_frame : DataFrame :=
  {| columns := example_columns;
     data := [ facility "North Clinic" "ACUTE" "MA" (PInt64 52000) ] |}.

Section Keys.

Local Open Scope list_scope.

(** ** Dictionary keys *)

Lemma key_eqb_true (a b : cell) : key_eqb a b = true <-> key_of a = key_of b.
Proof.
  tidy.
  unfold key_eqb. destruct (dict_key_eq_dec (key_of a) (key_of b)); split;
    intros; congruence.
Qed.

Lemma key_eqb_refl (a : cell) : key_eqb a a = true.
Proof. now apply key_eqb_true. Qed.

Lemma key_eqb_sym (a b : cell) : key_eqb a b = key_eqb b a.
Proof.
  tidy.
  destruct (key_eqb a b) eqn:E, (key_eqb b a) eqn:F; trivial.
  - apply key_eqb_true in E. symmetry in E. apply key_eqb_true in E. congruence.
  - apply key_eqb_true in F. symmetry in F. apply key_eqb_true in F. congruence.
Qed.

Lemma key_eqb_congr (a b c : cell) :
  key_eqb a b = true -> key_eqb a c = key_eqb b c.
Proof.
  tidy.
  intros H. apply key_eqb_true in H. unfold key_eqb. now rewrite H.
Qed.

Lemma mem_key_true (k : cell) (l : list cell) :
  mem_key k l = true <-> In (key_of k) (map key_of l).
Proof.
  tidy.
  unfold mem_key. rewrite existsb_exists, in_map_iff. split.
  - intros [x [Hin Hx]]. apply key_eqb_true in Hx. now exists x.
  - intros [x [Hx Hin]]. exists x. split; trivial. now apply key_eqb_true.
Qed.

Lemma mem_key_app (k : cell) (l1 l2 : list cell) :
  mem_key k (l1 ++ l2) = mem_key k l1 || mem_key k l2.
Proof. apply existsb_app. Qed.

(** ** First occurrences *)

Lemma distinct_snoc (l : list cell) (c : cell) :
  distinct (l ++ [c])
  = if mem_key c (distinct l) then distinct l else distinct l ++ [c].
Proof. unfold distinct. now rewrite fold_left_app. Qed.

Lemma distinct_mem (l : list cell) (k : cell) :
  mem_key k (distinct l) = mem_key k l.
Proof.
  tidy.
  induction l as [|c l IH] using rev_ind; trivial.
  rewrite distinct_snoc, (mem_key_app k l).
  destruct (mem_key c (distinct l)) eqn:E.
  - rewrite IH. simpl. rewrite orb_false_r.
    destruct (key_eqb k c) eqn:F; [|now rewrite orb_false_r].
    rewrite orb_true_r. rewrite <- IH.
    apply mem_key_true. apply mem_key_true in E. apply key_eqb_true in F.
    now rewrite F.
  - now rewrite mem_key_app, IH.
Qed.

Lemma distinct_incl (l : list cell) (k : cell) :
  In k (distinct l) -> In k l.
Proof.
  tidy.
  induction l as [|c l IH] using rev_ind; trivial.
  rewrite distinct_snoc, in_app_iff.
  destruct (mem_key c (distinct l)); [now left; apply IH|].
  rewrite in_app_iff. intros [H|H]; [left; now apply IH | now right].
Qed.

Lemma distinct_NoDup (l : list cell) : NoDup (map key_of (distinct l)).
Proof.
  tidy.
  induction l as [|c l IH] using rev_ind; [constructor|].
  rewrite distinct_snoc. destruct (mem_key c (distinct l)) eqn:E; trivial.
  rewrite map_app. simpl. apply NoDup_app_remove_l with (l := []). simpl.
  apply Permutation_NoDup with (l := key_of c :: map key_of (distinct l)).
  - apply Permutation_cons_append.
  - constructor; trivial. intros H. apply mem_key_true in H. congruence.
Qed.

(** The first occurrences are as many as the keys. *)
Lemma distinct_length (l : list cell) :
  length (distinct l) = length (nodup dict_key_eq_dec (map key_of l)).
Proof.
  tidy.
  rewrite <- (length_map key_of (distinct l)).
  apply Permutation_length, NoDup_Permutation.
  - apply distinct_NoDup.
  - apply NoDup_nodup.
  - intros k. rewrite nodup_In. split.
    + intros H. apply in_map_iff in H. destruct H as [c [<- Hc]].
      apply in_map. now apply distinct_incl.
    + intros H. apply in_map_iff in H. destruct H as [c [<- Hc]].
      apply mem_key_true. rewrite distinct_mem. apply mem_key_true.
      now apply in_map.
Qed.

Lemma key_of_dyadic_forget (s : bool) (m : positive) (e : Z) :
  forget_object (key_of_dyadic s m e) = key_of_dyadic s m e.
Proof. unfold key_of_dyadic. now destruct (strip_twos m e). Qed.

Lemma value_of_forget (c : cell) : value_of c = forget_object (key_of c).
Proof.
  tidy.
  unfold value_of.
  destruct c as [|t|[|p|p]|[s|s| |s m e] obj|[|p|p]]; simpl; trivial;
    now rewrite key_of_dyadic_forget.
Qed.

Lemma value_of_key (c : cell) : is_nan c = false -> value_of c = key_of c.
Proof.
  tidy.
  unfold value_of.
  now destruct c as [|t|z|[s|s| |s m e] obj|z].
Qed.

(** There are at least as many keys as values, and as many when no cell
    is NaN. *)
Lemma distinct_values_le (l : list cell) :
  (length (distinct_values l) <= length (distinct l))%nat.
Proof.
  tidy.
  rewrite distinct_length. unfold distinct_values.
  rewrite <- (length_map forget_object
                 (nodup dict_key_eq_dec (map key_of l))).
  apply NoDup_incl_length; [apply NoDup_nodup|].
  intros k Hk. apply nodup_In, in_map_iff in Hk. destruct Hk as [c [<- Hc]].
  rewrite value_of_forget. apply in_map, nodup_In. now apply in_map.
Qed.

Lemma distinct_values_length (l : list cell) :
  forallb (fun c => negb (is_nan c)) l = true ->
  length (distinct_values l) = length (distinct l).
Proof.
  tidy.
  intros H. rewrite distinct_length. unfold distinct_values.
  f_equal. f_equal. apply map_ext_in. intros c Hc. apply value_of_key.
  rewrite forallb_forall in H. apply H in Hc. now destruct (is_nan c).
Qed.

End Keys.

(** ** The series aggregator *)

Section Aggregator.

Local Open Scope list_scope.

Lemma cd_mem_map {V : Type} (f : cell -> V) (ks : list cell) (u : cell) :
  cd_mem (map (fun k => (k, f k)) ks) u = mem_key u ks.
Proof.
  tidy.
  unfold cd_mem. induction ks as [|k ks IH]; trivial.
  simpl. rewrite (key_eqb_sym u k).
  destruct (key_eqb k u); trivial.
Qed.

Lemma cd_update_map {V : Type} (f : cell -> V) (g : V -> V) (ks : list cell)
  (u : cell) :
  NoDup (map key_of ks) ->
  cd_update (map (fun k => (k, f k)) ks) u g
  = map (fun k => (k, if key_eqb k u then g (f k) else f k)) ks.
Proof.
  tidy.
  induction ks as [|k ks IH]; trivial.
  simpl. intros H. apply NoDup_cons_iff in H. destruct H as [Hk Hks].
  destruct (key_eqb k u) eqn:E.
  - f_equal. apply map_ext_in. intros k' Hin.
    destruct (key_eqb k' u) eqn:F; trivial.
    exfalso. apply Hk. apply key_eqb_true in E, F. rewrite E, <- F.
    now apply in_map.
  - f_equal. now apply IH.
Qed.

Lemma find_snoc {A : Type} (f : A -> bool) (l : list A) (a : A) :
  find f (l ++ [a])
  = match find f l with
    | Some x => Some x
    | None => if f a then Some a else None
    end.
Proof.
  tidy.
  induction l as [|x l IH]; simpl; [now destruct (f a)|].
  now destruct (f x).
Qed.

Lemma filter_snoc {A : Type} (f : A -> bool) (l : list A) (a : A) :
  filter f (l ++ [a]) = filter f l ++ (if f a then [a] else []).
Proof. rewrite filter_app. simpl. now destruct (f a). Qed.

Lemma mem_key_false (u : cell) (l : list cell) :
  mem_key u l = false -> forall k, In k l -> key_eqb k u = false.
Proof.
  tidy.
  unfold mem_key. intros H k Hin. rewrite key_eqb_sym.
  destruct (key_eqb u k) eqn:E; trivial.
  rewrite <- H. symmetry. apply existsb_exists. now exists k.
Qed.

Lemma find_same_use (use : cell) (points : list Point.t) :
  mem_key use (map Point.building_use points) = true ->
  exists p, find (same_use use) points = Some p.
Proof.
  tidy.
  unfold mem_key. induction points as [|q points IH]; simpl; [discriminate|].
  unfold same_use at 1. destruct (key_eqb use (Point.building_use q)).
  - now exists q.
  - exact IH.
Qed.

Lemma series_for_snoc_other (pre : list Point.t) (p : Point.t) (k : cell) :
  same_use k p = false ->
  series_for (pre ++ [p]) k = series_for pre k.
Proof.
  tidy.
  intros H. unfold series_for. rewrite find_snoc, filter_snoc, H, app_nil_r.
  now destruct (find (same_use k) pre).
Qed.

Lemma series_for_snoc_same (pre : list Point.t) (p : Point.t) (k : cell) :
  same_use k p = true ->
  mem_key k (map Point.building_use pre) = true ->
  series_for (pre ++ [p]) k = append_datum (datum_of p) (series_for pre k).
Proof.
  tidy.
  intros H Hmem. unfold series_for, append_datum. simpl.
  rewrite find_snoc, filter_snoc, H, map_app.
  destruct (find_same_use k pre Hmem) as [q Hq]. now rewrite Hq.
Qed.

Lemma series_for_snoc_new (pre : list Point.t) (p : Point.t) :
  mem_key (Point.building_use p) (map Point.building_use pre) = false ->
  series_for (pre ++ [p]) (Point.building_use p)
  = append_datum (datum_of p)
      {| Series.name := Point.building_use p;
         Series.color := Point.color p;
         Series.data := [] |}.
Proof.
  tidy.
  intros H. unfold series_for, append_datum. simpl.
  assert (Hnone : forall q, In q pre -> same_use (Point.building_use p) q = false).
  { intros q Hq. unfold same_use. rewrite key_eqb_sym.
    apply (mem_key_false _ _ H). now apply in_map. }
  assert (Hself : same_use (Point.building_use p) p = true)
    by apply key_eqb_refl.
  rewrite find_snoc, filter_snoc, Hself.
  assert (Hfilter : filter (same_use (Point.building_use p)) pre = []).
  { clear -Hnone. induction pre as [|q pre IH]; trivial. simpl.
    rewrite (Hnone q) by now left. apply IH. intros. apply Hnone. now right. }
  assert (Hfind : find (same_use (Point.building_use p)) pre = None).
  { clear -Hnone. induction pre as [|q pre IH]; trivial. simpl.
    rewrite (Hnone q) by now left. apply IH. intros. apply Hnone. now right. }
  now rewrite Hfilter, Hfind.
Qed.

Lemma add_point_grouped (pre : list Point.t) (p : Point.t) :
  add_point (grouped pre) p = grouped (pre ++ [p]).
Proof.
  tidy.
  unfold add_point, grouped.
  set (u := Point.building_use p).
  set (ks := distinct (map Point.building_use pre)).
  rewrite map_app.
  change (map Point.building_use [p]) with [u].
  rewrite distinct_snoc. fold ks.
  rewrite cd_mem_map.
  assert (Hmem : mem_key u ks = mem_key u (map Point.building_use pre))
    by apply distinct_mem.
  destruct (mem_key u ks) eqn:E; simpl negb; cbv iota.
  - rewrite cd_update_map by apply distinct_NoDup.
    apply map_ext_in. intros k Hk. f_equal.
    destruct (key_eqb k u) eqn:F.
    + symmetry. apply series_for_snoc_same; trivial.
      rewrite <- distinct_mem. fold ks.
      apply mem_key_true. now apply in_map.
    + symmetry. now apply series_for_snoc_other.
  - unfold cd_add.
    set (new := {| Series.name := u; Series.color := Point.color p;
                   Series.data := [] |}).
    assert (Hold : forall k, In k ks -> key_eqb k u = false)
      by now apply mem_key_false.
    transitivity
      (cd_update
         (map (fun k => (k, if key_eqb k u then new else series_for pre k))
              (ks ++ [u]))
         u (append_datum (datum_of p))).
    { f_equal. rewrite map_app. simpl. rewrite key_eqb_refl. f_equal.
      apply map_ext_in. intros k Hk. now rewrite (Hold k Hk). }
    rewrite cd_update_map.
    + apply map_ext_in. intros k Hk. f_equal.
      destruct (key_eqb k u) eqn:F.
      * apply in_app_or in Hk. destruct Hk as [Hk|[Hk|[]]].
        -- rewrite (Hold k Hk) in F. discriminate.
        -- subst k. symmetry. apply series_for_snoc_new.
           symmetry. exact Hmem.
      * symmetry. now apply series_for_snoc_other.
    + replace (ks ++ [u]) with (distinct (map Point.building_use pre ++ [u])).
      * apply distinct_NoDup.
      * rewrite distinct_snoc. fold ks. now rewrite E.
Qed.

Lemma group_series_from (pre post : list Point.t) :
  fold_left add_point post (grouped pre) = grouped (pre ++ post).
Proof.
  tidy.
  revert pre. induction post as [|p post IH]; intros pre.
  - now rewrite app_nil_r.
  - simpl. rewrite add_point_grouped, IH, <- app_assoc. reflexivity.
Qed.

(** The loop computes, for each building-use value in first-seen order,
    the series of that value. *)
Lemma group_series_grouped (map_points : list Point.t) :
  group_series map_points = grouped map_points.
Proof. apply (group_series_from [] map_points). Qed.

End Aggregator.

(** ** Rows and points *)

Section RowsAndPoints.

Local Open Scope list_scope.

Lemma map_result_Forall2 {A B : Type} (f : A -> result B) (l : list A)
  (bs : list B) :
  map_result f l = Ok bs -> Forall2 (fun a b => f a = Ok b) l bs.
Proof.
  tidy.
  revert bs. induction l as [|a l IH]; simpl; intros bs H.
  - injection H as <-. constructor.
  - destruct (f a) as [b|e] eqn:Ea; simpl in H; [|discriminate].
    destruct (map_result f l) as [bs'|e] eqn:El; simpl in H; [|discriminate].
    injection H as <-. constructor; auto.
Qed.

Lemma map_result_ok {A B : Type} (f : A -> result B) (l : list A) :
  (forall a, In a l -> exists b, f a = Ok b) ->
  exists bs, map_result f l = Ok bs.
Proof.
  tidy.
  induction l as [|a l IH]; simpl; intros H.
  - now exists [].
  - destruct (H a (or_introl eq_refl)) as [b Hb]. rewrite Hb. simpl.
    destruct IH as [bs Hbs]; [intros; apply H; now right|].
    rewrite Hbs. simpl. now exists (b :: bs).
Qed.

Lemma map_point_fields (color_by : string) (row : Row) (p : Point.t) :
  map_point color_by row = Ok p ->
  Point.color p = marker_color_of color_by row
  /\ Point.building_use p = building_use_of row
  /\ Point.square_feet p = row_get row "SQUARE_FEET" (PInt 0).
Proof.
  tidy.
  unfold map_point. intros H.
  destruct (row_getitem row "LATITUDE") as [la|e]; simpl in H; [|discriminate].
  destruct (py_float la) as [lat|e]; simpl in H; [|discriminate].
  destruct (row_getitem row "LONGITUDE") as [lo|e]; simpl in H; [|discriminate].
  destruct (py_float lo) as [lon|e]; simpl in H; [|discriminate].
  injection H as <-. simpl. auto.
Qed.

(** The color apart, a point does not depend on [color_by]. *)
Lemma map_point_color_by (cb cb' : string) (row : Row) (p p' : Point.t) :
  map_point cb row = Ok p -> map_point cb' row = Ok p' ->
  Point.building_use p = Point.building_use p' /\ datum_of p = datum_of p'.
Proof.
  tidy.
  unfold map_point. intros H H'.
  destruct (row_getitem row "LATITUDE") as [la|e]; simpl in H, H'; [|discriminate].
  destruct (py_float la) as [lat|e]; simpl in H, H'; [|discriminate].
  destruct (row_getitem row "LONGITUDE") as [lo|e]; simpl in H, H'; [|discriminate].
  destruct (py_float lo) as [lon|e]; simpl in H, H'; [|discriminate].
  injection H as <-. injection H' as <-. split; reflexivity.
Qed.

Lemma points_uses (color_by : string) (df : DataFrame)
  (map_points : list Point.t) :
  build_map_points color_by df = Ok map_points ->
  map Point.building_use map_points = map building_use_of (iterrows df).
Proof.
  tidy.
  unfold build_map_points. intros H. apply map_result_Forall2 in H.
  induction H as [|row p rows ps Hp _ IH]; trivial.
  simpl. f_equal; trivial. now apply map_point_fields in Hp.
Qed.

Lemma points_color_by (cb cb' : string) (df : DataFrame)
  (ps ps' : list Point.t) :
  build_map_points cb df = Ok ps -> build_map_points cb' df = Ok ps' ->
  map Point.building_use ps = map Point.building_use ps'
  /\ map (fun p => (Point.building_use p, datum_of p)) ps
     = map (fun p => (Point.building_use p, datum_of p)) ps'.
Proof.
  tidy.
  unfold build_map_points. intros H H'.
  apply map_result_Forall2 in H. apply map_result_Forall2 in H'.
  revert ps' H'. induction H as [|row p rows ps Hp _ IH]; intros ps' H'.
  - inversion H'. now split.
  - inversion H' as [|row' p' rows' ps'' Hp' Hrest]; subst.
    destruct (IH _ Hrest) as [IH1 IH2].
    destruct (map_point_color_by _ _ _ _ _ Hp Hp') as [Hu Hd].
    simpl. rewrite Hu, Hd, IH1, IH2. now split.
Qed.

Lemma filter_same_use_uncolored (ps ps' : list Point.t) (k : cell) :
  map (fun p => (Point.building_use p, datum_of p)) ps
  = map (fun p => (Point.building_use p, datum_of p)) ps' ->
  map datum_of (filter (same_use k) ps) = map datum_of (filter (same_use k) ps').
Proof.
  tidy.
  revert ps'. induction ps as [|p ps IH]; intros [|p' ps'] H; try discriminate;
    trivial.
  simpl in H.
  assert (Hu : Point.building_use p = Point.building_use p') by congruence.
  assert (Hd : datum_of p = datum_of p') by congruence.
  assert (Hrest : map (fun p => (Point.building_use p, datum_of p)) ps
                  = map (fun p => (Point.building_use p, datum_of p)) ps')
    by congruence.
  assert (Hs : same_use k p = same_use k p')
    by (unfold same_use; now rewrite Hu).
  simpl. rewrite Hs. destruct (same_use k p'); simpl;
    [rewrite Hd; f_equal|]; now apply IH.
Qed.

(** ** Partitions *)

Lemma filter_key_count (ks : list cell) (u : cell) :
  NoDup (map key_of ks) ->
  length (filter (fun k => key_eqb k u) ks) = if mem_key u ks then 1 else 0.
Proof.
  tidy.
  induction ks as [|k ks IH]; trivial.
  simpl. intros H. apply NoDup_cons_iff in H. destruct H as [Hk Hks].
  rewrite (key_eqb_sym u k). destruct (key_eqb k u) eqn:E; simpl.
  - rewrite (IH Hks). destruct (mem_key u ks) eqn:F; trivial.
    exfalso. apply Hk. apply key_eqb_true in E. rewrite E.
    now apply mem_key_true.
  - now apply IH.
Qed.

Lemma concat_filter_Permutation {A : Type} (key : A -> cell) (ks : list cell)
  (l : list A) :
  NoDup (map key_of ks) ->
  (forall a, In a l -> mem_key (key a) ks = true) ->
  Permutation (concat (map (fun k => filter (fun a => key_eqb k (key a)) l) ks))
              l.
Proof.
  tidy.
  intros Hnd. induction l as [|a l IH]; intros Hcover.
  - simpl. replace (concat (map (fun _ : cell => []) ks)) with (@nil A);
      [constructor|].
    clear. induction ks; simpl; auto.
  - assert (Hl : forall b, In b l -> mem_key (key b) ks = true)
      by (intros; apply Hcover; now right).
    specialize (IH Hl).
    assert (Ha : mem_key (key a) ks = true) by (apply Hcover; now left).
    apply mem_key_true, in_map_iff in Ha. destruct Ha as [k0 [Hk0 Hin]].
    apply in_split in Hin. destruct Hin as [ks1 [ks2 ->]].
    assert (Hother : forall k, In k (ks1 ++ ks2) -> key_eqb k (key a) = false).
    { intros k Hk. destruct (key_eqb k (key a)) eqn:E; trivial. exfalso.
      rewrite map_app in Hnd. simpl in Hnd. apply NoDup_remove_2 in Hnd.
      apply Hnd. rewrite <- map_app. apply key_eqb_true in E.
      rewrite Hk0, <- E. now apply in_map. }
    assert (Hsame : key_eqb k0 (key a) = true) by now apply key_eqb_true.
    rewrite map_app, concat_app in IH |- *. simpl in IH |- *.
    rewrite Hsame.
    rewrite (map_ext_in _ (fun k => filter (fun a0 => key_eqb k (key a0)) l) ks1).
    2:{ intros k Hk. rewrite Hother; trivial. apply in_or_app. now left. }
    rewrite (map_ext_in _ (fun k => filter (fun a0 => key_eqb k (key a0)) l) ks2).
    2:{ intros k Hk. rewrite Hother; trivial. apply in_or_app. now right. }
    simpl. apply Permutation_sym.
    apply Permutation_cons_app. now apply Permutation_sym.
Qed.

End RowsAndPoints.

(** ** Properties of the series aggregator *)

Section SeriesProperties.

Local Open Scope list_scope.

Lemma grouped_In (map_points : list Point.t) (use : cell) (s : Series.t) :
  In (use, s) (grouped map_points) ->
  s = series_for map_points use
  /\ mem_key use (map Point.building_use map_points) = true.
Proof.
  tidy.
  unfold grouped. intros H. apply in_map_iff in H.
  destruct H as [k [Hk Hin]]. injection Hk as -> <-. split; trivial.
  rewrite <- distinct_mem. apply mem_key_true. now apply in_map.
Qed.

Lemma filter_fst_map {V : Type} (f : cell -> V) (ks : list cell) (u : cell) :
  length (filter (fun item => key_eqb (fst item) u) (map (fun k => (k, f k)) ks))
  = length (filter (fun k => key_eqb k u) ks).
Proof.
  tidy.
  induction ks as [|k ks IH]; trivial.
  simpl. destruct (key_eqb k u); simpl; now rewrite IH.
Qed.

Lemma find_rows_points (color_by : string) (use : cell) (rows : list Row)
  (ps : list Point.t) (p : Point.t) :
  Forall2 (fun row p => map_point color_by row = Ok p) rows ps ->
  find (same_use use) ps = Some p ->
  exists row,
    find (fun r => key_eqb use (building_use_of r)) rows = Some row
    /\ map_point color_by row = Ok p.
Proof.
  tidy.
  induction 1 as [|row q rows ps Hq _ IH]; simpl; [discriminate|].
  destruct (map_point_fields _ _ _ Hq) as [_ [Hu _]].
  unfold same_use at 1. rewrite Hu.
  destruct (key_eqb use (building_use_of row)).
  - intros H. injection H as <-. now exists row.
  - exact IH.
Qed.

(** C1, as the code has it: the point series partition the records by
    the dict key of their building-use cell, whatever [color_by] is;
    equal values are one key, and every NaN object is a key of its own.
    The labels of the series are the first cells of the distinct keys
    in first-seen order, there are as many chart series as distinct
    keys, a series holds exactly the records of the key of its label,
    every record has exactly one series, the series together hold every
    record once, and another [color_by] gives the same labels and the
    same records in every series.  The series are at least as many as
    the distinct building-use values, and as many when no building use
    is NaN. *)
Theorem series_partition_by_building_use (color_by : string) (df : DataFrame)
  (map_points : list Point.t) :
  build_map_points color_by df = Ok map_points ->
  let series := group_series map_points in
  let uses := map building_use_of (iterrows df) in
  map fst series = distinct uses
  /\ length (map_series_data series) = length (distinct uses)
  /\ NoDup (map key_of (map fst series))
  /\ (forall use s, In (use, s) series ->
        Series.name s = use
        /\ Series.data s = map datum_of (filter (same_use use) map_points))
  /\ (forall p, In p map_points ->
        length (filter (fun item => key_eqb (fst item) (Point.building_use p))
                       series) = 1%nat)
  /\ Permutation (concat (map (fun item => Series.data (snd item)) series))
                 (map datum_of map_points)
  /\ (forall color_by' map_points',
        build_map_points color_by' df = Ok map_points' ->
        map uncolored (group_series map_points') = map uncolored series)
  /\ (length (distinct_values uses) <= length series)%nat
  /\ (forallb (fun use => negb (is_nan use)) uses = true ->
      length series = length (distinct_values uses)).
Proof.
  tidy.
  intros Hpoints series uses. subst series uses.
  rewrite group_series_grouped.
  pose proof (points_uses _ _ _ Hpoints) as Huses.
  assert (Hfst : map fst (grouped map_points)
                 = distinct (map Point.building_use map_points)).
  { unfold grouped. rewrite map_map. simpl. apply map_id. }
  assert (Hlen : length (grouped map_points)
                 = length (distinct (map building_use_of (iterrows df)))).
  { now rewrite <- Huses, <- Hfst, length_map. }
  split; [|split; [|split; [|split; [|split; [|split; [|split; [|split]]]]]]].
  - now rewrite Hfst, Huses.
  - unfold map_series_data. rewrite length_map, <- Huses, <- Hfst.
    now rewrite length_map.
  - rewrite Hfst. apply distinct_NoDup.
  - intros use s H. apply grouped_In in H. destruct H as [-> _]. now split.
  - intros p Hp. unfold grouped. rewrite filter_fst_map, filter_key_count.
    + rewrite distinct_mem.
      replace (mem_key _ _) with true; trivial.
      symmetry. apply mem_key_true. apply in_map. now apply in_map.
    + apply distinct_NoDup.
  - unfold grouped. rewrite map_map. simpl.
    rewrite <- (map_map (fun k => filter (same_use k) map_points)
                        (map datum_of)).
    rewrite <- concat_map. apply Permutation_map.
    apply (concat_filter_Permutation Point.building_use).
    + apply distinct_NoDup.
    + intros p Hp. rewrite distinct_mem. apply mem_key_true.
      apply in_map. now apply in_map.
  - intros color_by' map_points' Hpoints'.
    rewrite group_series_grouped. unfold grouped.
    destruct (points_color_by _ _ _ _ _ Hpoints' Hpoints) as [Hu Hud].
    rewrite Hu, !map_map. apply map_ext. intros k.
    unfold uncolored. simpl. f_equal.
    now apply filter_same_use_uncolored.
  - rewrite Hlen. apply distinct_values_le.
  - intros Hnan. rewrite Hlen. symmetry. now apply distinct_values_length.
Qed.

(** C9, as the code has it: the color of a series is the resolved color
    of the first record whose building-use cell has the dict key of the
    series (an equal value, or the same NaN object); every record of
    that key is in the series, whatever its own resolved color is, and
    a record whose key already has a series leaves the colors of all
    series as they are.  The chart series carries that color. *)
Theorem series_color_of_first_record (color_by : string) (df : DataFrame)
  (map_points : list Point.t) :
  build_map_points color_by df = Ok map_points ->
  forall use s, In (use, s) (group_series map_points) ->
    (exists row,
        find (fun r => key_eqb use (building_use_of r)) (iterrows df) = Some row
        /\ Series.color s = marker_color_of color_by row)
    /\ (forall p, In p map_points -> same_use use p = true ->
          In (datum_of p) (Series.data s))
    /\ (forall pre p post, map_points = pre ++ p :: post ->
          mem_key (Point.building_use p) (map Point.building_use pre) = true ->
          series_colors (group_series (pre ++ [p]))
          = series_colors (group_series pre))
    /\ obj_get (map_series (use, s)) "color" = Some (OStr (Series.color s)).
Proof.
  tidy.
  intros Hpoints use s Hin. rewrite group_series_grouped in Hin.
  apply grouped_In in Hin. destruct Hin as [-> Hmem].
  repeat split.
  - destruct (find_same_use _ _ Hmem) as [p Hp].
    unfold build_map_points in Hpoints. apply map_result_Forall2 in Hpoints.
    destruct (find_rows_points _ _ _ _ _ Hpoints Hp) as [row [Hrow Hmp]].
    exists row. split; trivial. simpl. rewrite Hp.
    now apply map_point_fields in Hmp.
  - intros p Hp Hsame. simpl. apply in_map. apply filter_In. now split.
  - intros pre p post _ Hseen. rewrite !group_series_grouped.
    unfold series_colors, grouped. rewrite map_app.
    change (map Point.building_use [p]) with [Point.building_use p].
    rewrite distinct_snoc, distinct_mem, Hseen, !map_map.
    apply map_ext_in. intros k Hk. simpl. f_equal. rewrite find_snoc.
    assert (Hk' : mem_key k (map Point.building_use pre) = true).
    { rewrite <- distinct_mem. apply mem_key_true. now apply in_map. }
    destruct (find_same_use _ _ Hk') as [q Hq]. now rewrite Hq.
Qed.

End SeriesProperties.

(** ** Properties of the query builder *)

Section QueryProperties.

Lemma fold_add_filter (filters : list filter_item) (q : string) :
  fold_left add_filter filters q
  = q ++ String.concat EmptyString (map filter_clause filters).
Proof.
  tidy.
  assert (Hnil : forall s : string, s ++ EmptyString = s).
  { induction s; simpl; congruence. }
  assert (Hassoc : forall a b c : string, (a ++ b) ++ c = a ++ b ++ c).
  { induction a; simpl; intros; congruence. }
  assert (Hcons : forall c l,
             String.concat EmptyString (c :: l)
             = c ++ String.concat EmptyString l).
  { intros c [|d l]; simpl; [now rewrite Hnil | reflexivity]. }
  revert q. induction filters as [|f filters IH]; intros q.
  - simpl. now rewrite Hnil.
  - cbn [fold_left map]. rewrite IH, Hcons, <- Hassoc. f_equal.
    destruct f as [c|[dim|] [[vs|c]|]]; simpl; now rewrite ?Hnil.
Qed.

(** C2, as the code has it: the query is the base query followed by the
    text of each filter in turn; a filter with ['dim'] and a list under
    ['val'] adds exactly one clause, with the values upper-cased, also
    when the list is empty, and any other entry adds nothing.  So the
    query has one clause per filter whose ['val'] is a list. *)
Theorem query_has_one_clause_per_list_filter (filters : list filter_item) :
  build_query filters
  = sql_base ++ String.concat EmptyString (map filter_clause filters)
  /\ (forall dim vs,
        filter_clause (FilterDict (Some dim) (Some (ValList vs)))
        = " AND UPPER(" ++ py_str dim ++ ") IN ('"
            ++ PyStr.join "', '" (map (fun v => PyStr.upper (py_str v)) vs)
            ++ "')")
  /\ (forall c, filter_clause (NotDict c) = EmptyString)
  /\ (forall val, filter_clause (FilterDict None val) = EmptyString)
  /\ (forall dim, filter_clause (FilterDict dim None) = EmptyString)
  /\ (forall dim c,
        filter_clause (FilterDict dim (Some (ValOther c))) = EmptyString)
  /\ length (clauses filters) = length (filter has_list_val filters).
Proof.
  tidy.
  split; [apply fold_add_filter|].
  repeat split; trivial.
  - now intros [|].
  - now intros [|].
  - unfold clauses. induction filters as [|f filters IH]; trivial.
    destruct f as [c|[dim|] [[vs|c]|]]; simpl; now rewrite ?IH.
Qed.

End QueryProperties.

(** ** Properties of the color classifier *)

Section ColorProperties.

Local Open Scope list_scope.

Lemma dict_get_In {V : Type} (d : list (string * V)) (k : string) (v : V) :
  dict_get d k = Some v -> In v (map snd d).
Proof.
  tidy.
  induction d as [|[k' v'] d IH]; simpl; [discriminate|].
  destruct (String.eqb k' k).
  - intros H. injection H as <-. now left.
  - intros H. right. now apply IH.
Qed.

Lemma colors_for_palette (color_by : string) :
  In (colors_for color_by) (map snd color_maps).
Proof.
  tidy.
  unfold colors_for, dict_get_default.
  destruct (dict_get color_maps color_by) as [palette|] eqn:E.
  - now apply dict_get_In in E.
  - now left.
Qed.

Lemma palettes_have_default :
  Forall (fun palette => dict_get palette "default" = Some "#6b7280"%string
                         /\ Forall (fun c => c <> EmptyString)
                                   (map snd palette))
         (map snd color_maps).
Proof. repeat constructor; discriminate. Qed.

(** C4: color resolution is total.  The palette is the one of the
    requested dimension, or the building-use palette when the dimension
    is unknown; the color is the entry of the record's upper-cased value
    in that palette, or the palette's [default] entry when the value has
    none; it is a member of that palette, and it is not empty. *)
Theorem color_resolution_total (color_by : string) (row : Row) :
  let colors := colors_for color_by in
  let color_value :=
    PyStr.upper (py_str (row_get row (PyStr.upper color_by) (PStr EmptyString))) in
  colors = match dict_get color_maps color_by with
           | Some palette => palette
           | None => building_use_colors
           end
  /\ dict_get color_maps "building_use" = Some building_use_colors
  /\ (exists default,
        dict_get colors "default" = Some default
        /\ marker_color_of color_by row
           = match dict_get colors color_value with
             | Some c => c
             | None => default
             end)
  /\ In (marker_color_of color_by row) (map snd colors)
  /\ marker_color_of color_by row <> EmptyString.
Proof.
  tidy.
  intros colors color_value.
  pose proof (colors_for_palette color_by) as Hpal. fold colors in Hpal.
  pose proof palettes_have_default as Hdef.
  rewrite Forall_forall in Hdef. destruct (Hdef _ Hpal) as [Hd Hne].
  assert (Hm : marker_color_of color_by row
               = match dict_get colors color_value with
                 | Some c => c
                 | None => "#6b7280"%string
                 end).
  { unfold marker_color_of. fold colors. fold color_value.
    unfold dict_get_default. now rewrite Hd. }
  assert (Hin : In (marker_color_of color_by row) (map snd colors)).
  { rewrite Hm. destruct (dict_get colors color_value) as [c|] eqn:E.
    - now apply dict_get_In in E.
    - now apply dict_get_In in Hd. }
  repeat split; trivial.
  - now exists "#6b7280"%string.
  - rewrite Forall_forall in Hne. now apply Hne.
Qed.

End ColorProperties.

(** ** Properties of the summary *)

Section SummaryProperties.

Local Open Scope list_scope.

Lemma insert_desc_Permutation (x : cell * nat) (l : list (cell * nat)) :
  Permutation (insert_desc x l) (x :: l).
Proof.
  tidy.
  induction l as [|y l IH]; simpl; [reflexivity|].
  destruct (snd y <=? snd x)%nat; [reflexivity|].
  rewrite IH. apply perm_swap.
Qed.

Lemma sort_desc_Permutation (l : list (cell * nat)) :
  Permutation (sort_desc l) l.
Proof.
  tidy.
  induction l as [|x l IH]; simpl; [reflexivity|].
  rewrite insert_desc_Permutation. now apply perm_skip.
Qed.











End SummaryProperties.

(** ** Properties of the table builder *)

Section TableLemmas.

Local Open Scope list_scope.

Lemma commas_rev_ind (P : list ascii -> Prop) :
  P [] -> (forall a, P [a]) -> (forall a b, P [a; b]) ->
  (forall a b c, P [a; b; c]) ->
  (forall a b c d rest, P (d :: rest) -> P (a :: b :: c :: d :: rest)) ->
  forall l, P l.
Proof.
  tidy.
  intros H0 H1 H2 H3 Hstep.
  assert (H : forall n l, (length l <= n)%nat -> P l).
  { induction n as [|n IH]; intros l Hl.
    - destruct l; [exact H0 | simpl in Hl; lia].
    - destruct l as [|a [|b [|c [|d rest]]]]; auto.
      apply Hstep. apply IH. simpl in Hl |- *. lia. }
  intros l. now apply (H (length l)).
Qed.

Lemma commas_rev_In (l : list ascii) (x : ascii) :
  In x (commas_rev l) -> x = ","%char \/ In x l.
Proof.
  tidy.
  induction l as [| | | |a b c d rest IH] using commas_rev_ind; auto.
  cbn [commas_rev]. intros [<-|[<-|[<-|[<-|H]]]]; simpl; auto 6.
  destruct (IH H) as [->|H']; simpl in *; tauto.
Qed.

Lemma commas_rev_strip (l : list ascii) :
  Forall (fun c => is_digit c = true) l ->
  filter (fun c => negb (Ascii.eqb c ","%char)) (commas_rev l) = l.
Proof.
  tidy.
  assert (Hd : forall c, is_digit c = true -> negb (Ascii.eqb c ","%char) = true).
  { intros c Hc.
    destruct (Ascii.eqb_spec c ","%char) as [->|];
      [discriminate Hc | reflexivity]. }
  induction l as [| | | |a b c d rest IH] using commas_rev_ind; intros H;
    [ | | | |change (commas_rev (a :: b :: c :: d :: rest))
               with (a :: b :: c :: ","%char :: commas_rev (d :: rest)) ];
    repeat match goal with
           | H : Forall _ (_ :: _) |- _ => inversion_clear H
           end;
    cbn [filter commas_rev]; rewrite ?Hd by assumption; trivial.
  change (negb (Ascii.eqb ","%char ","%char)) with false. cbv iota.
  assert (Hrest : Forall (fun c => is_digit c = true) (d :: rest))
    by now constructor.
  apply IH in Hrest. cbn [filter commas_rev] in Hrest.
  rewrite ?Hd in Hrest by assumption. now rewrite Hrest.
Qed.

(** In the reversed text there is a comma at every fourth place, and
    only there. *)
Lemma commas_rev_places (l : list ascii) :
  Forall (fun c => is_digit c = true) l ->
  forall i c, nth_error (commas_rev l) i = Some c ->
              (c = ","%char <-> i mod 4 = 3)%nat.
Proof.
  tidy.
  assert (Hd : forall c, is_digit c = true -> c <> ","%char).
  { intros c Hc ->. discriminate. }
  induction l as [| | | |a b c d rest IH] using commas_rev_ind;
    intros H i x Hx;
    [ | | | |change (commas_rev (a :: b :: c :: d :: rest))
               with (a :: b :: c :: ","%char :: commas_rev (d :: rest)) in Hx ];
    repeat match goal with
           | H : Forall _ (_ :: _) |- _ => inversion_clear H
           end.
  - destruct i; discriminate.
  - destruct i as [|[|]]; try discriminate; injection Hx as <-;
      split; [intros ->; discriminate | discriminate].
  - destruct i as [|[|[|]]]; try discriminate; injection Hx as <-;
      (split; [intros ->; discriminate | discriminate]).
  - destruct i as [|[|[|[|]]]]; try discriminate; injection Hx as <-;
      (split; [intros ->; discriminate | discriminate]).
  - destruct i as [|[|[|[|i]]]]; simpl in Hx.
    + injection Hx as <-. split; [intros ->; discriminate | discriminate].
    + injection Hx as <-. split; [intros ->; discriminate | discriminate].
    + injection Hx as <-. split; [intros ->; discriminate | discriminate].
    + injection Hx as <-. split; reflexivity.
    + assert (Hrest : Forall (fun c => is_digit c = true) (d :: rest))
        by now constructor.
      rewrite (IH Hrest i x Hx).
      replace (S (S (S (S i)))) with (i + 1 * 4)%nat by lia.
      now rewrite Nat.Div0.mod_add.
Qed.

(** [round_half_even m e] is an integer nearest to [m * 2^e]: it is at
    most one half away. *)
Lemma round_half_even_nearest (m p : positive) :
  let d := N.shiftl 1 (Npos p) in
  let n := round_half_even m (Zneg p) in
  (2 * (Npos m - n * d) <= d /\ 2 * (n * d - Npos m) <= d)%N.
Proof.
  tidy.
  intros d n. subst n. unfold round_half_even. fold d.
  assert (Hd : (d <> 0)%N).
  { unfold d. rewrite N.shiftl_1_l. apply N.pow_nonzero. discriminate. }
  pose proof (N.div_mod (Npos m) d Hd) as Hdiv.
  pose proof (N.mod_lt (Npos m) d Hd) as Hlt.
  set (q := (Npos m / d)%N) in *. set (r := (Npos m mod d)%N) in *.
  rewrite Hdiv.
  destruct (2 * r ?= d)%N eqn:E;
    [rewrite N.compare_eq_iff in E | rewrite N.compare_lt_iff in E
     | rewrite N.compare_gt_iff in E];
    try destruct (N.even q);
    rewrite ?N.mul_add_distr_r, ?N.mul_1_l, (N.mul_comm q d);
    clearbody q r d; split; lia.
Qed.

Lemma string_of_uint_digits (d : Decimal.uint) :
  Forall (fun c => is_digit c = true)
         (list_ascii_of_string (NilEmpty.string_of_uint d)).
Proof. induction d; simpl; constructor; trivial. Qed.

Lemma of_N_digits (n : N) :
  Forall (fun c => is_digit c = true) (list_ascii_of_string (PyStr.of_N n)).
Proof. apply string_of_uint_digits. Qed.

Lemma strip_commas_group3 (n : N) :
  strip_commas (group3 (PyStr.of_N n)) = PyStr.of_N n.
Proof.
  tidy.
  unfold strip_commas, group3.
  rewrite list_ascii_of_string_of_list_ascii.
  set (p := fun c => negb (Ascii.eqb c ","%char)).
  assert (Hrev : forall l : list ascii, filter p (rev l) = rev (filter p l)).
  { induction l as [|a l IH]; trivial. simpl.
    rewrite filter_app, IH. simpl. now destruct (p a); rewrite ?app_nil_r. }
  rewrite Hrev. unfold p. rewrite commas_rev_strip.
  - rewrite rev_involutive. apply string_of_list_ascii_of_string.
  - apply Forall_rev. apply of_N_digits.
Qed.

Lemma group3_not_NA (n : N) : group3 (PyStr.of_N n) <> "N/A"%string.
Proof.
  tidy.
  intros H. apply (f_equal list_ascii_of_string) in H.
  unfold group3 in H. rewrite list_ascii_of_string_of_list_ascii in H.
  assert (Hin : In "N"%char (rev (commas_rev (rev (list_ascii_of_string
                                                     (PyStr.of_N n))))))
    by (rewrite H; now left).
  apply in_rev, commas_rev_In in Hin. destruct Hin as [Hin|Hin]; [discriminate|].
  apply in_rev in Hin. pose proof (of_N_digits n) as Hd.
  rewrite Forall_forall in Hd. apply Hd in Hin. discriminate.
Qed.

Lemma format_comma_0f_not_NA (f : spec_float) :
  format_comma_0f f <> "N/A"%string.
Proof.
  tidy.
  destruct f as [[|]|[|]| |[|] m e]; simpl; try discriminate.
  apply group3_not_NA.
Qed.

Lemma format_cell_not_NA (c : cell) (s : string) :
  format_cell_comma_0f c = Ok s -> s <> "N/A"%string.
Proof.
  tidy.
  destruct c as [|t|z|f obj|z]; simpl; try discriminate.
  - destruct (float_of_int z) as [f|e]; simpl; [|discriminate].
    intros H. injection H as <-. apply format_comma_0f_not_NA.
  - intros H. injection H as <-. apply format_comma_0f_not_NA.
  - destruct (float_of_int z) as [f|e]; simpl; [|discriminate].
    intros H. injection H as <-. apply format_comma_0f_not_NA.
Qed.

(** On a tie the rounded integer is even. *)
Lemma round_half_even_tie (m p : positive) :
  let d := N.shiftl 1 (Npos p) in
  (2 * (Npos m mod d) = d)%N ->
  N.even (round_half_even m (Zneg p)) = true.
Proof.
  tidy.
  intros d H. unfold round_half_even. fold d.
  rewrite (proj2 (N.compare_eq_iff _ _) H).
  destruct (N.even (N.pos m / d)) eqn:E; trivial.
  rewrite N.even_add, E. reflexivity.
Qed.

Lemma table_row_raises (row : Row) (e : exn) :
  (if notna (row_get row "SQUARE_FEET" (PInt 0))
   then format_cell_comma_0f (row_get row "SQUARE_FEET" (PInt 0))
   else Ok "N/A"%string) = Raise e ->
  table_row row = Raise e.
Proof. unfold table_row. now intros ->. Qed.

Lemma table_row_sq_ft (row : Row) (s : string) :
  (if notna (row_get row "SQUARE_FEET" (PInt 0))
   then format_cell_comma_0f (row_get row "SQUARE_FEET" (PInt 0))
   else Ok "N/A"%string) = Ok s ->
  exists r, table_row row = Ok r /\ TableRow.sq_ft r = s.
Proof. unfold table_row. intros ->. simpl. eauto. Qed.

Lemma table_row_inv (row : Row) (r : TableRow.t) :
  table_row row = Ok r ->
  (if notna (row_get row "SQUARE_FEET" (PInt 0))
   then format_cell_comma_0f (row_get row "SQUARE_FEET" (PInt 0))
   else Ok "N/A"%string) = Ok (TableRow.sq_ft r).
Proof.
  tidy.
  unfold table_row.
  destruct (if notna _ then _ else _) as [s|e]; simpl; [|discriminate].
  intros H. now injection H as <-.
Qed.

End TableLemmas.

Section TableProperties.

Local Open Scope list_scope.

(** C6, as the code has it: the sq_ft of a table row is the text of the
    SQUARE_FEET cell in the format [,.0f].  For a finite float this is
    the sign, then the digits of the nearest integer, ties to even,
    with a comma at every third place from the right, so that 12345.0
    gives ["12,345"]; a zero gives ["0"] or ["-0"] and an infinity
    ["inf"] or ["-inf"].  An int is converted to float first and then
    formatted in the same way, so that 2**53 + 1 gives the text of
    2**53, and an int beyond the range of float raises
    [OverflowError]; a str raises [ValueError].  The text is ["N/A"]
    when the cell is None or NaN.  When the row has no SQUARE_FEET key,
    the default 0 is formatted and the text is ["0"]. *)
Theorem square_feet_text (row : Row) :
  (forall s m e obj,
      square_feet_cell row = Some (PFloat (S754_finite s m e) obj) ->
      exists r, table_row row = Ok r
                /\ TableRow.sq_ft r
                   = (sign_prefix s
                      ++ group3 (PyStr.of_N (round_half_even m e)))%string)
  /\ (forall s obj, square_feet_cell row = Some (PFloat (S754_zero s) obj) ->
        exists r, table_row row = Ok r
                  /\ TableRow.sq_ft r = (sign_prefix s ++ "0")%string)
  /\ (forall s obj,
        square_feet_cell row = Some (PFloat (S754_infinity s) obj) ->
        exists r, table_row row = Ok r
                  /\ TableRow.sq_ft r = (sign_prefix s ++ "inf")%string)
  /\ (forall z, square_feet_cell row = Some (PInt z)
                \/ square_feet_cell row = Some (PInt64 z) ->
        (forall f, float_of_int z = Ok f ->
           exists r, table_row row = Ok r
                     /\ TableRow.sq_ft r = format_comma_0f f)
        /\ (forall e, float_of_int z = Raise e ->
              e = OverflowError /\ table_row row = Raise OverflowError))
  /\ (forall t, square_feet_cell row = Some (PStr t) ->
        table_row row = Raise ValueError)
  /\ (forall m e, (0 <= e)%Z ->
        round_half_even m e = (Npos m * 2 ^ Z.to_N e)%N)
  /\ (forall m p,
        let d := N.shiftl 1 (Npos p) in
        let n := round_half_even m (Zneg p) in
        (2 * (Npos m - n * d) <= d /\ 2 * (n * d - Npos m) <= d)%N
        /\ ((2 * (Npos m mod d) = d)%N -> N.even n = true))
  /\ (forall n, strip_commas (group3 (PyStr.of_N n)) = PyStr.of_N n)
  /\ (forall n i c,
        nth_error (rev (list_ascii_of_string (group3 (PyStr.of_N n)))) i
        = Some c ->
        (c = ","%char <-> i mod 4 = 3)%nat)
  /\ format_comma_0f (binary_normalize 53 1024 12345 0 false) = "12,345"%string
  /\ format_cell_comma_0f (PInt (2 ^ 53 + 1))
     = Ok "9,007,199,254,740,992"%string
  /\ (forall c, square_feet_cell row = Some c -> notna c = false ->
        exists r, table_row row = Ok r /\ TableRow.sq_ft r = "N/A"%string)
  /\ (square_feet_cell row = None ->
        exists r, table_row row = Ok r /\ TableRow.sq_ft r = "0"%string).
Proof.
  tidy.
  unfold square_feet_cell.
  split; [|split; [|split; [|split; [|split; [|split; [|split; [|split;
    [|split; [|split; [|split; [|split]]]]]]]]]]].
  - intros s m e obj Hc. apply table_row_sq_ft. unfold row_get.
    now rewrite Hc.
  - intros s obj Hc. apply table_row_sq_ft. unfold row_get. now rewrite Hc.
  - intros s obj Hc. apply table_row_sq_ft. unfold row_get. now rewrite Hc.
  - intros z Hc.
    assert (Hget : (if notna (row_get row "SQUARE_FEET" (PInt 0))
                    then format_cell_comma_0f
                           (row_get row "SQUARE_FEET" (PInt 0))
                    else Ok "N/A"%string)
                   = (f <- float_of_int z ;; Ok (format_comma_0f f))).
    { unfold row_get. now destruct Hc as [-> | ->]. }
    split.
    + intros f Hf. apply table_row_sq_ft. now rewrite Hget, Hf.
    + intros e Hf.
      assert (He : e = OverflowError).
      { unfold float_of_int in Hf.
        destruct (binary_normalize 53 1024 z 0 false); congruence. }
      split; trivial. apply table_row_raises. rewrite Hget, Hf, He.
      reflexivity.
  - intros t Hc. apply table_row_raises. unfold row_get. now rewrite Hc.
  - intros m e He. unfold round_half_even.
    destruct e as [|p|p]; [| |lia].
    + change (Z.to_N 0) with 0%N. rewrite N.shiftl_0_r, N.pow_0_r.
      now rewrite N.mul_1_r.
    + apply N.shiftl_mul_pow2.
  - intros m p. split.
    + apply round_half_even_nearest.
    + apply round_half_even_tie.
  - apply strip_commas_group3.
  - intros n i c H.
    unfold group3 in H. rewrite list_ascii_of_string_of_list_ascii in H.
    rewrite rev_involutive in H. revert H. apply commas_rev_places.
    apply Forall_rev, of_N_digits.
  - reflexivity.
  - vm_compute. reflexivity.
  - intros c Hc Hna. apply table_row_sq_ft. unfold row_get.
    now rewrite Hc, Hna.
  - intros Hc. apply table_row_sq_ft. unfold row_get. now rewrite Hc.
Qed.

(** C10: a row without the SQUARE_FEET key gets the default 0: the
    sq_ft of its table row is ["0"] and the square_feet of its map point
    is 0.  A table row has ["N/A"] only when the cell is there and is
    None or NaN. *)
Theorem missing_square_feet_is_zero (row : Row) :
  square_feet_cell row = None ->
  (exists r, table_row row = Ok r /\ TableRow.sq_ft r = "0"%string)
  /\ row_get row "SQUARE_FEET" (PInt 0) = PInt 0
  /\ (forall color_by p, map_point color_by row = Ok p ->
        Point.square_feet p = PInt 0)
  /\ (forall row' r, table_row row' = Ok r ->
        TableRow.sq_ft r = "N/A"%string ->
        square_feet_cell row' = Some PNone
        \/ exists obj, square_feet_cell row' = Some (PFloat S754_nan obj)).
Proof.
  tidy.
  unfold square_feet_cell. intros Hc.
  assert (Hget : row_get row "SQUARE_FEET" (PInt 0) = PInt 0)
    by (unfold row_get; now rewrite Hc).
  repeat split; trivial.
  - apply table_row_sq_ft. now rewrite Hget.
  - intros color_by p Hp. apply map_point_fields in Hp.
    destruct Hp as [_ [_ ->]]. exact Hget.
  - intros row' r Hr Hna. apply table_row_inv in Hr. rewrite Hna in Hr.
    unfold row_get in Hr.
    destruct (lookup (index row') (values row') "SQUARE_FEET") as [c|].
    + destruct (notna c) eqn:E.
      * now apply format_cell_not_NA in Hr.
      * destruct c as [|t|z|[s|s| |s m e] obj|z]; try discriminate E; eauto.
    + simpl in Hr. discriminate Hr.
Qed.

End TableProperties.

(** ** Properties of the skill as a whole *)

Section SkillProperties.

Local Open Scope list_scope.

Lemma fetch_ok (client : outcome Client) (sql_query : string)
  (frame : DataFrame) :
  fetch client sql_query = Ok frame <->
  exists execute_sql_query result,
    client = Returns execute_sql_query
    /\ execute_sql_query DATABASE_ID sql_query 1000%nat = Returns result
    /\ success result = Some true
    /\ df result = Some (Some frame).
Proof.
  tidy.
  unfold fetch. split.
  - destruct client as [execute|msg]; [|discriminate].
    destruct (execute DATABASE_ID sql_query 1000%nat) as [result|msg] eqn:E;
      [|discriminate].
    destruct (success result) as [[|]|] eqn:Es; try discriminate.
    destruct (df result) as [[frame'|]|] eqn:Ed; try discriminate.
    simpl. intros H. injection H as ->. now exists execute, result.
  - intros [execute [result [-> [-> [-> ->]]]]]. reflexivity.
Qed.

Lemma facility_map_eq (client : outcome Client)
  (wire_layout : pyobj -> pyobj -> outcome string) (parameters : SkillInput) :
  facility_map client wire_layout parameters
  = match fetch client (build_query (filters_of parameters)) with
    | Raise _ => Ok fetch_failed
    | Ok frame =>
        if (len frame =? 0)%nat then Ok no_facilities
        else
          match layout_for (color_by_of parameters) frame with
          | Raise e => Raise e
          | Ok layout =>
              Ok {| final_prompt := summary_of frame;
                    narrative := None;
                    visualizations :=
                      [ {| title := "Facility Map";
                           layout := render wire_layout layout |} ] |}
          end
    end.
Proof.
  tidy.
  unfold facility_map, layout_for.
  destruct (fetch client _) as [frame|e]; trivial.
  destruct (len frame =? 0)%nat; trivial.
  now destruct (transform _ frame) as [[[[s c] t] l]|e].
Qed.

(** *** The JSON dump of the chart configuration *)

Lemma forallb_map_eq {A B : Type} (f : A -> B) (P : B -> bool) (l : list A) :
  forallb P (map f l) = forallb (fun a => P (f a)) l.
Proof. induction l as [|a l IH]; simpl; congruence. Qed.


Lemma serialisable_point (p : Point.t) :
  serialisable (map_series_point (datum_of p)) = point_json_ok p.
Proof. reflexivity. Qed.

Lemma serialisable_series (use : cell) (s : Series.t) :
  serialisable (map_series (use, s))
  = json_ok use
    && forallb (fun d => serialisable (map_series_point d)) (Series.data s).
Proof.
  tidy.
  cbn. rewrite forallb_map_eq, !andb_true_r. reflexivity.
Qed.

Lemma serialisable_map_config (series : list pyobj) :
  serialisable (map_config series) = forallb serialisable series.
Proof. tidy. cbn. now rewrite andb_true_r. Qed.

(** The dump returns exactly when no cell of a point that reaches the
    chart is a [numpy.int64]. *)
Lemma serialisable_chart (map_points : list Point.t) :
  serialisable (map_config (map_series_data (group_series map_points)))
  = forallb point_json_ok map_points.
Proof.
  tidy.
  rewrite serialisable_map_config, group_series_grouped.
  unfold map_series_data. rewrite forallb_map_eq.
  apply eq_true_iff_eq. rewrite !forallb_forall. split.
  - intros H p Hp.
    assert (Hmem : mem_key (Point.building_use p)
                     (distinct (map Point.building_use map_points)) = true).
    { rewrite distinct_mem. apply mem_key_true. apply in_map.
      now apply in_map. }
    apply existsb_exists in Hmem. destruct Hmem as [u [Hu Hsame]].
    specialize (H (u, series_for map_points u)).
    rewrite serialisable_series in H.
    assert (Hin : In (u, series_for map_points u) (grouped map_points)).
    { unfold grouped. apply in_map_iff. now exists u. }
    apply H, andb_true_iff in Hin. destruct Hin as [_ Hdata].
    rewrite forallb_forall in Hdata.
    rewrite <- serialisable_point. apply Hdata. simpl.
    apply in_map, filter_In. split; trivial.
    unfold same_use. now rewrite key_eqb_sym.
  - intros H [u s] Hin. unfold grouped in Hin. apply in_map_iff in Hin.
    destruct Hin as [k [Hk Hin]]. injection Hk as -> <-.
    rewrite serialisable_series. apply andb_true_iff. split.
    + apply distinct_incl, in_map_iff in Hin. destruct Hin as [p [<- Hp]].
      apply H in Hp. unfold point_json_ok, point_cells in Hp. simpl in Hp.
      rewrite !andb_true_iff in Hp. tauto.
    + apply forallb_forall. intros d Hd. simpl in Hd.
      apply in_map_iff in Hd. destruct Hd as [p [<- Hp]].
      apply filter_In in Hp. rewrite serialisable_point. now apply H.
Qed.

Lemma transform_eq (color_by : string) (df : DataFrame) :
  transform color_by df
  = match build_map_points color_by df with
    | Raise e => Raise e
    | Ok map_points =>
        if forallb point_json_ok map_points then
          match build_table_rows df with
          | Raise e => Raise e
          | Ok table_rows =>
              let chart :=
                map_config (map_series_data (group_series map_points)) in
              Ok (group_series map_points, chart, table_rows,
                  layout_of df color_by chart table_rows)
          end
        else Raise TypeError
    end.
Proof.
  tidy.
  unfold transform. destruct (build_map_points color_by df) as [ps|e]; trivial.
  simpl. unfold json_dumps. rewrite serialisable_chart.
  destruct (forallb point_json_ok ps); trivial.
Qed.

Lemma map_point_cells (color_by : string) (row : Row) (p : Point.t) :
  map_point color_by row = Ok p -> point_cells p = chart_cells row.
Proof.
  tidy.
  unfold map_point. intros H.
  destruct (row_getitem row "LATITUDE") as [la|e]; simpl in H; [|discriminate].
  destruct (py_float la) as [lat|e]; simpl in H; [|discriminate].
  destruct (row_getitem row "LONGITUDE") as [lo|e]; simpl in H; [|discriminate].
  destruct (py_float lo) as [lon|e]; simpl in H; [|discriminate].
  injection H as <-. reflexivity.
Qed.

Lemma row_ok_map_point (color_by : string) (row : Row) :
  row_ok row = true ->
  exists p, map_point color_by row = Ok p /\ point_json_ok p = true.
Proof.
  tidy.
  intros H.
  assert (Hp : exists p, map_point color_by row = Ok p).
  { revert H. unfold row_ok, map_point, row_getitem, converts.
    destruct (lookup (index row) (values row) "LATITUDE") as [la|];
      [|discriminate].
    destruct (lookup (index row) (values row) "LONGITUDE") as [lo|];
      [|discriminate].
    simpl. destruct (py_float la) as [lat|]; [|discriminate].
    destruct (py_float lo) as [lon|]; [|discriminate].
    simpl. eauto. }
  destruct Hp as [p Hp]. exists p. split; trivial.
  unfold point_json_ok. rewrite (map_point_cells _ _ _ Hp).
  unfold row_ok in H.
  destruct (lookup (index row) (values row) "LATITUDE") as [la|];
    [|discriminate].
  destruct (lookup (index row) (values row) "LONGITUDE") as [lo|];
    [|discriminate].
  rewrite !andb_true_iff in H. tauto.
Qed.

Lemma formats_iff (c : cell) :
  formats c = true <->
  exists s, (if notna c then format_cell_comma_0f c else Ok "N/A"%string)
            = Ok s.
Proof.
  tidy.
  destruct c as [|t|z|[s|s| |s m e] obj|z]; simpl; split; eauto;
    try discriminate;
    try (now intros [s' Hs']);
    try (destruct (float_of_int z); simpl; eauto; try discriminate;
         now intros [s' Hs']).
Qed.

Lemma row_ok_table_row (row : Row) :
  row_ok row = true -> exists r, table_row row = Ok r.
Proof.
  tidy.
  unfold row_ok.
  destruct (lookup (index row) (values row) "LATITUDE") as [la|];
    [|discriminate].
  destruct (lookup (index row) (values row) "LONGITUDE") as [lo|];
    [|discriminate].
  rewrite !andb_true_iff. intros [_ Hf].
  apply formats_iff in Hf.
  destruct Hf as [s Hs]. destruct (table_row_sq_ft _ _ Hs) as [r [Hr _]].
  eauto.
Qed.

Lemma row_ok_iff (color_by : string) (row : Row) :
  row_ok row = true <->
  (exists p, map_point color_by row = Ok p /\ point_json_ok p = true)
  /\ (exists r, table_row row = Ok r).
Proof.
  tidy.
  split.
  - intros H. split; [now apply row_ok_map_point | now apply row_ok_table_row].
  - intros [[p [Hp Hjson]] [r Hr]].
    unfold point_json_ok in Hjson. rewrite (map_point_cells _ _ _ Hp) in Hjson.
    unfold row_ok. unfold map_point, row_getitem in Hp.
    destruct (lookup (index row) (values row) "LATITUDE") as [la|];
      [|discriminate].
    simpl in Hp. unfold converts.
    destruct (py_float la) as [lat|]; [|discriminate].
    destruct (lookup (index row) (values row) "LONGITUDE") as [lo|];
      [|discriminate].
    simpl in Hp. destruct (py_float lo) as [lon|]; [|discriminate].
    rewrite Hjson. simpl. apply formats_iff.
    apply table_row_inv in Hr. eauto.
Qed.

Lemma map_result_ok_inv {A B : Type} (f : A -> result B) (l : list A)
  (bs : list B) :
  map_result f l = Ok bs ->
  forall a, In a l -> exists b, In b bs /\ f a = Ok b.
Proof.
  tidy.
  intros H. apply map_result_Forall2 in H.
  induction H as [|a b l bs Hab _ IH]; intros x [].
  - subst. exists b. split; [now left|trivial].
  - destruct (IH x) as [b' [Hb' Hx]]; trivial. exists b'. split; trivial.
    now right.
Qed.

Lemma map_result_all {A B : Type} (f : A -> result B) (P : B -> bool)
  (l : list A) (bs : list B) :
  map_result f l = Ok bs ->
  (forall a b, In a l -> f a = Ok b -> P b = true) ->
  forallb P bs = true.
Proof.
  tidy.
  intros H. apply map_result_Forall2 in H.
  induction H as [|a b l bs Hab _ IH]; intros HP; trivial.
  simpl. rewrite (HP a b); [|now left|trivial]. simpl.
  apply IH. intros a' b' Ha'. apply HP. now right.
Qed.

(** The transformation returns exactly on the frames whose rows are all
    accepted. *)
Lemma layout_for_ok_iff (color_by : string) (frame : DataFrame) :
  (exists layout, layout_for color_by frame = Ok layout)
  <-> frame_ok frame = true.
Proof.
  tidy.
  unfold layout_for, frame_ok. rewrite transform_eq, forallb_forall.
  unfold build_map_points, build_table_rows. split.
  - intros [l Hl] row Hrow.
    destruct (map_result (map_point color_by) (iterrows frame)) as [ps|e]
      eqn:Ep; [|discriminate].
    destruct (forallb point_json_ok ps) eqn:Ej; [|discriminate].
    destruct (map_result table_row (iterrows frame)) as [rs|e] eqn:Er;
      [|discriminate].
    apply (row_ok_iff color_by). split.
    + destruct (map_result_ok_inv _ _ _ Ep row Hrow) as [p [Hin Hp]].
      exists p. split; trivial.
      rewrite forallb_forall in Ej. now apply Ej.
    + destruct (map_result_ok_inv _ _ _ Er row Hrow) as [r [_ Hr]]. eauto.
  - intros H.
    destruct (map_result_ok (map_point color_by) (iterrows frame)) as [ps Hps].
    { intros row Hrow. destruct (row_ok_map_point color_by row) as [p [Hp _]];
        eauto. }
    rewrite Hps.
    rewrite (map_result_all _ point_json_ok _ _ Hps).
    + destruct (map_result_ok table_row (iterrows frame)) as [rs ->].
      { intros row Hrow. apply row_ok_table_row. now apply H. }
      eauto.
    + intros row p Hrow Hp.
      destruct (row_ok_map_point color_by row (H row Hrow)) as [p' [Hp' Hj]].
      congruence.
Qed.

Lemma frame_ok_layout (color_by : string) (frame : DataFrame) :
  frame_ok frame = true -> exists layout, layout_for color_by frame = Ok layout.
Proof. apply layout_for_ok_iff. Qed.

(** On a frame with rows the skill returns exactly when the
    transformation does, and raises what it raises. *)
Lemma facility_map_returns (client : outcome Client)
  (wire_layout : pyobj -> pyobj -> outcome string) (parameters : SkillInput)
  (frame : DataFrame) :
  fetch client (build_query (filters_of parameters)) = Ok frame ->
  len frame <> 0%nat ->
  (frame_ok frame = true ->
   exists output, facility_map client wire_layout parameters = Ok output)
  /\ (frame_ok frame = false ->
      exists e, facility_map client wire_layout parameters = Raise e).
Proof.
  tidy.
  intros Hfetch Hlen. apply Nat.eqb_neq in Hlen.
  rewrite facility_map_eq, Hfetch, Hlen.
  pose proof (layout_for_ok_iff (color_by_of parameters) frame) as Hiff.
  destruct (layout_for (color_by_of parameters) frame) as [l|e].
  - split; eauto. intros Hbad.
    assert (frame_ok frame = true) by (apply Hiff; eauto). congruence.
  - split; eauto. intros Hok. apply Hiff in Hok. destruct Hok as [l Hl].
    discriminate.
Qed.

(** C3, as the code has it: a failure of the fetch step is absorbed.
    The fetch succeeds exactly when the client is built, the call
    returns, [success] is true and [df] holds a frame; in every other
    case the skill returns the fixed failure summary with no
    visualization.  When the fetched frame is one that the
    transformation accepts (every row has LATITUDE and LONGITUDE cells
    that convert to float, no [numpy.int64] among the cells that go
    into the chart, and a SQUARE_FEET cell that is a float or an int in
    the range of float when it is there and not missing), the skill
    returns a result object, whatever the layout engine does.  When the
    fetched frame has rows and is not one that the transformation
    accepts, the skill raises. *)
Theorem failures_absorbed (client : outcome Client)
  (wire_layout : pyobj -> pyobj -> outcome string) (parameters : SkillInput) :
  let sql_query := build_query (filters_of parameters) in
  (forall frame,
      fetch client sql_query = Ok frame <->
      exists execute_sql_query result,
        client = Returns execute_sql_query
        /\ execute_sql_query DATABASE_ID sql_query 1000%nat = Returns result
        /\ success result = Some true
        /\ df result = Some (Some frame))
  /\ ((forall frame, fetch client sql_query <> Ok frame) ->
      facility_map client wire_layout parameters = Ok fetch_failed)
  /\ final_prompt fetch_failed = "Failed to retrieve facility data."%string
  /\ visualizations fetch_failed = []
  /\ (forall frame, fetch client sql_query = Ok frame ->
        frame_ok frame = true ->
        exists output, facility_map client wire_layout parameters = Ok output)
  /\ (forall frame, fetch client sql_query = Ok frame ->
        len frame <> 0%nat ->
        frame_ok frame = false ->
        exists e, facility_map client wire_layout parameters = Raise e).
Proof.
  tidy.
  intros sql_query. split; [intros frame; apply fetch_ok|].
  repeat split.
  - intros H. rewrite facility_map_eq. fold sql_query.
    destruct (fetch client sql_query) as [frame|e]; trivial.
    now elim (H frame).
  - intros frame Hfetch Hok. rewrite facility_map_eq. fold sql_query.
    rewrite Hfetch. destruct (len frame =? 0)%nat; eauto.
    destruct (frame_ok_layout (color_by_of parameters) frame Hok) as [l ->].
    eauto.
  - intros frame Hfetch Hlen Hbad.
    now apply (facility_map_returns client wire_layout parameters frame).
Qed.

(** C7: when the layout engine raises, the exception is caught: the
    skill still returns exactly one visualization, whose content is the
    inline error notice, and the summary is the one of the fetched
    frame, the same as when the layout engine returns. *)
Theorem render_failure_absorbed (client : outcome Client)
  (wire_layout : pyobj -> pyobj -> outcome string) (parameters : SkillInput)
  (frame : DataFrame) (layout_json : pyobj) (msg : string) :
  fetch client (build_query (filters_of parameters)) = Ok frame ->
  len frame <> 0%nat ->
  layout_for (color_by_of parameters) frame = Ok layout_json ->
  wire_layout layout_json (ODict []) = Raises msg ->
  facility_map client wire_layout parameters
  = Ok {| final_prompt := summary_of frame;
          narrative := None;
          visualizations :=
            [ {| title := "Facility Map";
                 layout := ("<div>Error rendering layout: " ++ msg
                            ++ "</div>")%string |} ] |}
  /\ (forall wire_layout' html,
        wire_layout' layout_json (ODict []) = Returns html ->
        facility_map client wire_layout' parameters
        = Ok {| final_prompt := summary_of frame;
                narrative := None;
                visualizations :=
                  [ {| title := "Facility Map"; layout := html |} ] |}).
Proof.
  tidy.
  intros Hfetch Hlen Hlayout Hraise.
  apply Nat.eqb_neq in Hlen.
  split; [|intros wire_layout' html Hhtml];
    rewrite facility_map_eq, Hfetch, Hlen, Hlayout; unfold render.
  - now rewrite Hraise.
  - now rewrite Hhtml.
Qed.

End SkillProperties.

(** ** Further properties of the skill *)

Section EdgeCases.

Local Open Scope list_scope.

(** X1: when the fetch succeeds with a frame without rows, the skill
    returns the fixed "no facilities" result with no visualization,
    whatever the columns of the frame, the filters, [color_by] and the
    layout engine are. *)
Theorem empty_frame_short_circuits (client : outcome Client)
  (wire_layout : pyobj -> pyobj -> outcome string) (parameters : SkillInput)
  (frame : DataFrame) :
  fetch client (build_query (filters_of parameters)) = Ok frame ->
  len frame = 0%nat ->
  facility_map client wire_layout parameters = Ok no_facilities
  /\ visualizations no_facilities = []
  /\ final_prompt no_facilities
     = "No facilities found matching the criteria."%string.
Proof.
  tidy.
  intros Hfetch Hlen. rewrite facility_map_eq, Hfetch, Hlen. now repeat split.
Qed.

Lemma map_result_raise {A B : Type} (f : A -> result B) (pre post : list A)
  (a : A) (e : exn) :
  (forall x, In x pre -> exists b, f x = Ok b) ->
  f a = Raise e ->
  map_result f (pre ++ a :: post) = Raise e.
Proof.
  tidy.
  intros Hpre Ha. induction pre as [|x pre IH]; simpl.
  - now rewrite Ha.
  - destruct (Hpre x (or_introl eq_refl)) as [b ->]. simpl.
    rewrite IH; trivial. intros y Hy. apply Hpre. now right.
Qed.

(** X2: on a fetched frame with rows, the skill returns a result object
    exactly when every row has LATITUDE and LONGITUDE cells that convert
    to float, no [numpy.int64] among the cells that go into the chart
    (the JSON dump of the chart raises [TypeError] on one), and a
    SQUARE_FEET cell that is missing, a float, or an int in the range
    of float; with any other frame an exception reaches the caller. *)
Theorem returns_iff_frame_ok (client : outcome Client)
  (wire_layout : pyobj -> pyobj -> outcome string) (parameters : SkillInput)
  (frame : DataFrame) :
  fetch client (build_query (filters_of parameters)) = Ok frame ->
  len frame <> 0%nat ->
  ((exists output, facility_map client wire_layout parameters = Ok output)
   <-> frame_ok frame = true)
  /\ (frame_ok frame = false ->
      exists e, facility_map client wire_layout parameters = Raise e).
Proof.
  tidy.
  intros Hfetch Hlen.
  destruct (facility_map_returns client wire_layout parameters frame
              Hfetch Hlen) as [Hok Hbad].
  split; trivial. split; trivial.
  intros [output Hout]. destruct (frame_ok frame) eqn:E; trivial.
  destruct (Hbad eq_refl) as [e He]. congruence.
Qed.

Lemma raise_at_row (client : outcome Client)
  (wire_layout : pyobj -> pyobj -> outcome string) (parameters : SkillInput)
  (frame : DataFrame) (before after : list Row) (row : Row) (e : exn) :
  fetch client (build_query (filters_of parameters)) = Ok frame ->
  iterrows frame = before ++ row :: after ->
  (forall r, In r before -> exists p, map_point (color_by_of parameters) r = Ok p) ->
  map_point (color_by_of parameters) row = Raise e ->
  facility_map client wire_layout parameters = Raise e.
Proof.
  tidy.
  intros Hfetch Hrows Hbefore Hrow.
  assert (Hlen : (len frame =? 0)%nat = false).
  { apply Nat.eqb_neq. unfold len.
    apply (f_equal (@length Row)) in Hrows. unfold iterrows in Hrows.
    rewrite length_map, length_app in Hrows. simpl in Hrows. lia. }
  rewrite facility_map_eq, Hfetch, Hlen.
  unfold layout_for, transform, build_map_points.
  rewrite Hrows.
  rewrite (map_result_raise (map_point (color_by_of parameters))
                            before after row e Hbefore Hrow).
  reflexivity.
Qed.

(** X3: the exception that reaches the caller is the one of the first
    row, in fetch order, whose map point cannot be built: the rows
    before it are converted, the rows after it are not looked at, and
    no table row is formatted. *)
Theorem first_bad_row_raises (client : outcome Client)
  (wire_layout : pyobj -> pyobj -> outcome string) (parameters : SkillInput)
  (frame : DataFrame) (before after : list Row) (row : Row) (e : exn) :
  fetch client (build_query (filters_of parameters)) = Ok frame ->
  iterrows frame = before ++ row :: after ->
  (forall r, In r before -> exists p, map_point (color_by_of parameters) r = Ok p) ->
  map_point (color_by_of parameters) row = Raise e ->
  facility_map client wire_layout parameters = Raise e
  /\ (forall after', map_result (map_point (color_by_of parameters))
                                (before ++ row :: after') = Raise e).
Proof.
  tidy.
  intros Hfetch Hrows Hbefore Hrow. split.
  - now apply (raise_at_row _ _ _ frame before after row).
  - intros after'. now apply map_result_raise.
Qed.

Lemma lookup_absent (idx : list string) (vals : list cell) (key : string) :
  existsb (String.eqb key) idx = false -> lookup idx vals key = None.
Proof.
  tidy.
  revert vals. induction idx as [|k idx IH]; intros vals; trivial.
  simpl. rewrite String.eqb_sym. destruct (String.eqb k key); simpl;
    [discriminate|]. apply IH.
Qed.

Lemma iterrows_index (frame : DataFrame) (row : Row) :
  In row (iterrows frame) -> index row = columns frame.
Proof.
  tidy.
  unfold iterrows. intros H. apply in_map_iff in H.
  destruct H as [vs [<- _]]. reflexivity.
Qed.

(** X4: a fetched frame with rows but without the LATITUDE column makes
    the skill raise [KeyError('LATITUDE')]; with LATITUDE cells that
    convert to float but without the LONGITUDE column it raises
    [KeyError('LONGITUDE')]. *)
Theorem missing_coordinate_column_raises (client : outcome Client)
  (wire_layout : pyobj -> pyobj -> outcome string) (parameters : SkillInput)
  (frame : DataFrame) :
  fetch client (build_query (filters_of parameters)) = Ok frame ->
  len frame <> 0%nat ->
  (has_column frame "LATITUDE" = false ->
   facility_map client wire_layout parameters = Raise (KeyError "LATITUDE"))
  /\ (has_column frame "LONGITUDE" = false ->
      (forall row, In row (iterrows frame) ->
                   converts (row_get row "LATITUDE" PNone) = true) ->
      facility_map client wire_layout parameters = Raise (KeyError "LONGITUDE")).
Proof.
  tidy.
  intros Hfetch Hlen.
  destruct (iterrows frame) as [|row rows] eqn:Hrows.
  { elim Hlen. unfold len. unfold iterrows in Hrows.
    now destruct (data frame). }
  assert (Hidx : index row = columns frame).
  { apply iterrows_index. rewrite Hrows. now left. }
  split.
  - intros Hcol.
    apply (raise_at_row client wire_layout parameters frame [] rows row);
      trivial; [now intros r []|].
    unfold map_point, row_getitem. rewrite Hidx.
    now rewrite (lookup_absent _ _ _ Hcol).
  - intros Hcol Hlat.
    apply (raise_at_row client wire_layout parameters frame [] rows row);
      trivial; [now intros r []|].
    assert (Hrow : converts (row_get row "LATITUDE" PNone) = true).
    { apply Hlat. now left. }
    unfold map_point, row_getitem, row_get, converts in *. rewrite Hidx in *.
    rewrite (lookup_absent _ _ "LONGITUDE" Hcol).
    destruct (lookup (columns frame) (values row) "LATITUDE") as [la|].
    + simpl. destruct (py_float la); [reflexivity|discriminate].
    + discriminate Hrow.
Qed.

(** X17: the chart configuration is dumped as JSON before the table is
    built.  When every map point is built and some record has a
    [numpy.int64] among the cells that go into the chart, the skill
    raises [TypeError], whatever the table rows would do. *)
Theorem json_dump_raises (client : outcome Client)
  (wire_layout : pyobj -> pyobj -> outcome string) (parameters : SkillInput)
  (frame : DataFrame) (map_points : list Point.t) (row : Row) :
  fetch client (build_query (filters_of parameters)) = Ok frame ->
  build_map_points (color_by_of parameters) frame = Ok map_points ->
  In row (iterrows frame) ->
  forallb json_ok (chart_cells row) = false ->
  facility_map client wire_layout parameters = Raise TypeError
  /\ transform (color_by_of parameters) frame = Raise TypeError.
Proof.
  tidy.
  intros Hfetch Hpoints Hrow Hjson.
  assert (Hlen : (len frame =? 0)%nat = false).
  { apply Nat.eqb_neq. unfold len. unfold iterrows in Hrow.
    destruct (data frame); [destruct Hrow|discriminate]. }
  assert (Hbad : forallb point_json_ok map_points = false).
  { destruct (map_result_ok_inv _ _ _ Hpoints row Hrow) as [p [Hin Hp]].
    destruct (forallb point_json_ok map_points) eqn:E; trivial.
    rewrite forallb_forall in E. apply E in Hin.
    unfold point_json_ok in Hin.
    rewrite (map_point_cells _ _ _ Hp) in Hin. congruence. }
  assert (Htransform : transform (color_by_of parameters) frame
                       = Raise TypeError).
  { now rewrite transform_eq, Hpoints, Hbad. }
  split; trivial.
  rewrite facility_map_eq, Hfetch, Hlen. unfold layout_for.
  now rewrite Htransform.
Qed.

End EdgeCases.

Section OrderOfRows.

Local Open Scope list_scope.

Lemma Forall2_nth {A B : Type} (R : A -> B -> Prop) (l : list A)
  (l' : list B) (i : nat) (a : A) :
  Forall2 R l l' -> nth_error l i = Some a ->
  exists b, nth_error l' i = Some b /\ R a b.
Proof.
  tidy.
  intros H. revert i. induction H as [|x y l l' Hxy _ IH]; intros [|i] Hi;
    try discriminate.
  - injection Hi as <-. now exists y.
  - now apply IH.
Qed.

Lemma table_row_fields (row : Row) (r : TableRow.t) :
  table_row row = Ok r ->
  TableRow.name r = row_get row "BUILDING_NAME" (PStr EmptyString)
  /\ TableRow.city r = row_get row "CITY" (PStr EmptyString)
  /\ TableRow.state r = row_get row "STATE" (PStr EmptyString)
  /\ TableRow.type r = row_get row "BUILDING_TYPE" (PStr EmptyString)
  /\ TableRow.use r = row_get row "BUILDING_USE" (PStr EmptyString)
  /\ TableRow.ownership r = row_get row "OWN_LEASE" (PStr EmptyString).
Proof.
  tidy.
  unfold table_row.
  destruct (if notna _ then _ else _) as [s|e]; simpl; [|discriminate].
  intros H. injection H as <-. simpl. repeat split.
Qed.

(** X5: the table has one row per fetched record, in fetch order: the
    i-th table row is built from the i-th record, with the record's
    name, city, state, type, use and ownership cells, and the empty
    text for a cell whose column the frame does not have. *)
Theorem table_rows_follow_records (frame : DataFrame)
  (table_rows : list TableRow.t) :
  build_table_rows frame = Ok table_rows ->
  length table_rows = len frame
  /\ (forall i row, nth_error (iterrows frame) i = Some row ->
        exists r,
          nth_error table_rows i = Some r
          /\ table_row row = Ok r
          /\ TableRow.name r = row_get row "BUILDING_NAME" (PStr EmptyString)
          /\ TableRow.city r = row_get row "CITY" (PStr EmptyString)
          /\ TableRow.state r = row_get row "STATE" (PStr EmptyString)
          /\ TableRow.type r = row_get row "BUILDING_TYPE" (PStr EmptyString)
          /\ TableRow.use r = row_get row "BUILDING_USE" (PStr EmptyString)
          /\ TableRow.ownership r = row_get row "OWN_LEASE" (PStr EmptyString)).
Proof.
  tidy.
  unfold build_table_rows. intros H. apply map_result_Forall2 in H. split.
  - apply Forall2_length in H. unfold len. rewrite <- H. unfold iterrows.
    apply length_map.
  - intros i row Hi. destruct (Forall2_nth _ _ _ _ _ H Hi) as [r [Hr Hrow]].
    exists r. split; trivial. split; trivial. now apply table_row_fields.
Qed.

Lemma map_point_inv (color_by : string) (row : Row) (p : Point.t) :
  map_point color_by row = Ok p ->
  Point.name p = row_get row "BUILDING_NAME" (PStr "Unknown")
  /\ (exists latitude,
         lookup (index row) (values row) "LATITUDE" = Some latitude
         /\ py_float latitude = Ok (Point.lat p))
  /\ (exists longitude,
         lookup (index row) (values row) "LONGITUDE" = Some longitude
         /\ py_float longitude = Ok (Point.lon p))
  /\ Point.building_type p = row_get row "BUILDING_TYPE" (PStr EmptyString)
  /\ Point.city p = row_get row "CITY" (PStr EmptyString)
  /\ Point.state p = row_get row "STATE" (PStr EmptyString)
  /\ Point.address p = row_get row "FULL_ADDRESS" (PStr EmptyString)
  /\ Point.own_lease p = row_get row "OWN_LEASE" (PStr EmptyString).
Proof.
  unfold map_point, row_getitem. intros H.
  destruct (lookup (index row) (values row) "LATITUDE") as [la|];
    simpl in H; [|discriminate].
  destruct (py_float la) as [lat|] eqn:Ela; simpl in H; [|discriminate].
  destruct (lookup (index row) (values row) "LONGITUDE") as [lo|];
    simpl in H; [|discriminate].
  destruct (py_float lo) as [lon|] eqn:Elo; simpl in H; [|discriminate].
  injection H as <-. simpl. repeat split; eauto.
Qed.

(** X6: there is one map point per fetched record, in fetch order: the
    i-th point has the float of the i-th record's LATITUDE and LONGITUDE
    cells, the record's resolved color and its descriptive cells; a
    record without a BUILDING_NAME is named ['Unknown'] on the map. *)
Theorem map_points_follow_records (color_by : string) (frame : DataFrame)
  (map_points : list Point.t) :
  build_map_points color_by frame = Ok map_points ->
  length map_points = len frame
  /\ (forall i row, nth_error (iterrows frame) i = Some row ->
        exists p,
          nth_error map_points i = Some p
          /\ Point.color p = marker_color_of color_by row
          /\ Point.name p = row_get row "BUILDING_NAME" (PStr "Unknown")
          /\ (exists latitude,
                 lookup (index row) (values row) "LATITUDE" = Some latitude
                 /\ py_float latitude = Ok (Point.lat p))
          /\ (exists longitude,
                 lookup (index row) (values row) "LONGITUDE" = Some longitude
                 /\ py_float longitude = Ok (Point.lon p))
          /\ Point.building_use p = row_get row "BUILDING_USE" (PStr EmptyString)
          /\ Point.square_feet p = row_get row "SQUARE_FEET" (PInt 0)).
Proof.
  unfold build_map_points. intros H. apply map_result_Forall2 in H. split.
  - apply Forall2_length in H. unfold len. rewrite <- H. unfold iterrows.
    apply length_map.
  - intros i row Hi. destruct (Forall2_nth _ _ _ _ _ H Hi) as [p [Hp Hrow]].
    exists p. split; trivial.
    destruct (map_point_fields _ _ _ Hrow) as [Hc [Hu Hs]].
    destruct (map_point_inv _ _ _ Hrow) as [Hn [Hla [Hlo _]]].
    repeat split; trivial.
Qed.

End OrderOfRows.

Section LayoutProperties.

Local Open Scope list_scope.

Lemma of_nat_inj (i j : nat) : PyStr.of_nat i = PyStr.of_nat j -> i = j.
Proof.
  tidy.
  unfold PyStr.of_nat, PyStr.of_N. intros H.
  apply (f_equal NilEmpty.uint_of_string) in H.
  rewrite !NilEmpty.usu in H. injection H as H.
  apply (f_equal N.of_uint) in H. rewrite !DecimalN.Unsigned.of_to in H.
  now apply Nat2N.inj.
Qed.

Lemma extend_rows_names (i : nat) (table_rows : list TableRow.t) :
  map obj_name (extend_rows i table_rows)
  = map Some (td_names i (length table_rows)).
Proof.
  tidy.
  revert i. induction table_rows as [|row rest IH]; intros i; trivial.
  cbn [extend_rows length td_names]. rewrite !map_app, IH. reflexivity.
Qed.

Lemma td_names_length (i n : nat) : length (td_names i n) = (7 * n)%nat.
Proof.
  tidy.
  revert i. induction n as [|n IH]; intros i; trivial.
  cbn [td_names]. rewrite length_app, length_map, IH. simpl. lia.
Qed.

Lemma td_names_form (i n : nat) (s : string) :
  In s (td_names i n) ->
  exists prefix j, In prefix td_prefixes /\ (i <= j)%nat
                   /\ s = (prefix ++ PyStr.of_nat j)%string.
Proof.
  tidy.
  revert i. induction n as [|n IH]; intros i; [intros []|].
  cbn [td_names]. rewrite in_app_iff. intros [H|H].
  - apply in_map_iff in H. destruct H as [prefix [<- Hp]].
    exists prefix, i. auto.
  - destruct (IH _ H) as [prefix [j [Hp [Hj ->]]]].
    exists prefix, j. repeat split; trivial. lia.
Qed.

(** Two cell names are equal only when they have the same prefix and
    the same row number. *)
Lemma td_name_inj (p q : string) (i j : nat) :
  In p td_prefixes -> In q td_prefixes ->
  (p ++ PyStr.of_nat i)%string = (q ++ PyStr.of_nat j)%string ->
  p = q /\ i = j.
Proof.
  tidy.
  unfold td_prefixes. simpl.
  intros Hp Hq H.
  repeat match goal with
         | H : _ \/ _ |- _ => destruct H
         | H : False |- _ => destruct H
         end; subst; simpl in H; try discriminate H;
    (split; [reflexivity|]); apply of_nat_inj;
    repeat match type of H with
           | String _ _ = String _ _ => injection H as H
           end; exact H.
Qed.

Lemma td_names_NoDup (i n : nat) : NoDup (td_names i n).
Proof.
  tidy.
  revert i. induction n as [|n IH]; intros i; [constructor|].
  cbn [td_names]. apply NoDup_app.
  - apply Finite.Injective_map_NoDup_in.
    + intros p q Hp Hq H. now destruct (td_name_inj p q i i Hp Hq H).
    + unfold td_prefixes. repeat constructor; simpl; intuition discriminate.
  - apply IH.
  - intros s Hs Hrest. apply in_map_iff in Hs. destruct Hs as [p [<- Hp]].
    destruct (td_names_form _ _ _ Hrest) as [q [j [Hq [Hj Heq]]]].
    destruct (td_name_inj p q i j Hp Hq Heq) as [_ ->]. lia.
Qed.

Lemma fixed_names_apart (i n : nat) (s : string) :
  In s fixed_names -> ~ In s (td_names i n).
Proof.
  tidy.
  intros Hs Htd. destruct (td_names_form _ _ _ Htd) as [p [j [Hp [_ ->]]]].
  unfold fixed_names, td_prefixes in *. simpl in Hs, Hp.
  repeat match goal with
         | H : _ \/ _ |- _ => destruct H
         | H : False |- _ => destruct H
         end; subst; discriminate.
Qed.

(** X7: the layout has twelve fixed nodes (header, legend, chart, table
    caption, table container and seven column heads) followed by seven
    cells per table row, and every node has a name of its own: no two
    nodes of the layout share a name. *)
Theorem layout_nodes_are_named_apart (frame : DataFrame) (color_by : string)
  (chart : pyobj) (table_rows : list TableRow.t) :
  let children :=
    layout_children (layout_of frame color_by chart table_rows) in
  length children = (12 + 7 * length table_rows)%nat
  /\ exists names,
       map obj_name children = map Some names
       /\ names = fixed_names ++ td_names 0 (length table_rows)
       /\ NoDup names.
Proof.
  tidy.
  intros children.
  assert (Hchildren : children
                      = firstn 12 children ++ extend_rows 0 table_rows)
    by reflexivity.
  assert (Hnames : map obj_name children
                   = map Some (fixed_names ++ td_names 0 (length table_rows))).
  { rewrite Hchildren, !map_app, extend_rows_names. reflexivity. }
  split.
  - rewrite <- (length_map obj_name), Hnames, length_map, length_app.
    now rewrite td_names_length.
  - eexists. split; [exact Hnames|]. split; [reflexivity|].
    apply NoDup_app.
    + unfold fixed_names. repeat constructor; simpl; intuition discriminate.
    + apply td_names_NoDup.
    + intros s. apply fixed_names_apart.
Qed.

Lemma extend_rows_nth (k i : nat) (table_rows : list TableRow.t)
  (row : TableRow.t) :
  nth_error table_rows i = Some row ->
  firstn 7 (skipn (7 * i) (extend_rows k table_rows)) = table_cells (k + i) row.
Proof.
  tidy.
  revert k i. induction table_rows as [|r rest IH]; intros k [|i] H;
    try discriminate.
  - injection H as ->. rewrite Nat.add_0_r. reflexivity.
  - cbn [extend_rows]. replace (7 * S i)%nat with (7 + 7 * i)%nat by lia.
    change (table_cells k r ++ extend_rows (S k) rest)
      with (firstn 7 (table_cells k r)
            ++ (skipn 7 (table_cells k r) ++ extend_rows (S k) rest)).
    rewrite <- (Nat.add_succ_comm k i).
    rewrite <- (IH (S k) i H). reflexivity.
Qed.

(** X8: the seven cells of the i-th table row are the children 12 + 7 i
    to 12 + 7 i + 6 of the layout, they carry the row's name, city,
    state, type, use, ownership and square footage in this order, and
    their background is white for an even i and grey for an odd i. *)
Theorem table_cells_of_row (frame : DataFrame) (color_by : string)
  (chart : pyobj) (table_rows : list TableRow.t) (i : nat) (row : TableRow.t) :
  nth_error table_rows i = Some row ->
  let children :=
    layout_children (layout_of frame color_by chart table_rows) in
  let cells := firstn 7 (skipn (12 + 7 * i) children) in
  cells = table_cells i row
  /\ map (fun cell => obj_get cell "text") cells
     = [ Some (OCell (TableRow.name row)); Some (OCell (TableRow.city row));
         Some (OCell (TableRow.state row)); Some (OCell (TableRow.type row));
         Some (OCell (TableRow.use row));
         Some (OCell (TableRow.ownership row));
         Some (OStr (TableRow.sq_ft row)) ]
  /\ Forall (fun cell =>
               background_of cell
               = Some (OStr (if Nat.even i then "#ffffff" else "#f8fafc"))
               /\ obj_get cell "parentId" = Some (OStr "FacilityTable"))
            cells.
Proof.
  tidy.
  intros Hrow children cells.
  assert (Hcells : cells = table_cells i row).
  { subst cells children.
    remember (firstn 12 (layout_children
                           (layout_of frame color_by chart table_rows)))
      as fixed eqn:Hfixed.
    assert (Hlen : length fixed = 12%nat) by now rewrite Hfixed.
    change (layout_children (layout_of frame color_by chart table_rows))
      with (firstn 12 (layout_children
                         (layout_of frame color_by chart table_rows))
            ++ extend_rows 0 table_rows).
    rewrite <- Hfixed, skipn_app, Hlen.
    rewrite (skipn_all2 fixed) by lia.
    replace (12 + 7 * i - 12)%nat with (7 * i)%nat by lia.
    rewrite app_nil_l.
    exact (extend_rows_nth 0 i table_rows row Hrow). }
  rewrite Hcells. repeat split. unfold table_cells.
  repeat constructor.
Qed.

End LayoutProperties.

Section ChartProperties.

Local Open Scope list_scope.

Lemma series_points_length (item : cell * Series.t) :
  length (series_points (map_series item)) = length (Series.data (snd item)).
Proof.
  tidy.
  destruct item as [use s]. unfold series_points, map_series. simpl.
  apply length_map.
Qed.

Lemma grouped_points_total (map_points : list Point.t) :
  list_sum (map (fun item => length (Series.data (snd item)))
                (grouped map_points))
  = length map_points.
Proof.
  tidy.
  unfold grouped. rewrite map_map. simpl.
  rewrite <- (Permutation_length
                (concat_filter_Permutation Point.building_use
                   (distinct (map Point.building_use map_points)) map_points
                   (distinct_NoDup _)
                   (fun p Hp =>
                      eq_trans (distinct_mem _ _)
                               (proj2 (mem_key_true _ _)
                                      (in_map key_of _ _
                                         (in_map Point.building_use _ _ Hp)))))).
  rewrite length_concat, map_map. f_equal. apply map_ext. intros k.
  now rewrite length_map.
Qed.

(** X9: the chart configuration starts with the background series
    ['US States'], which is kept out of the legend, followed by one
    [mappoint] series per distinct dict key among the building-use
    cells (equal values are one key, and every NaN object is a key of
    its own); the point series together hold as many points as there
    are fetched records, and this chart is the [options] of the chart
    node of the layout. *)
Theorem chart_holds_every_record (color_by : string) (frame : DataFrame)
  (series_by_color : list (cell * Series.t)) (chart : pyobj)
  (table_rows : list TableRow.t) (layout_json : pyobj) :
  transform color_by frame = Ok (series_by_color, chart, table_rows, layout_json) ->
  exists background point_series,
    chart_series chart = background :: point_series
    /\ obj_get background "name" = Some (OStr "US States")
    /\ obj_get background "showInLegend" = Some (OBool false)
    /\ Forall (fun s => obj_get s "type" = Some (OStr "mappoint")) point_series
    /\ length point_series
       = length (distinct (map building_use_of (iterrows frame)))
    /\ list_sum (map (fun s => length (series_points s)) point_series)
       = len frame
    /\ exists node,
         nth_error (layout_children layout_json) 2 = Some node
         /\ obj_name node = Some "FacilityMapChart"%string
         /\ obj_get node "options" = Some chart.
Proof.
  rewrite transform_eq. intros H.
  destruct (build_map_points color_by frame) as [ps|] eqn:Ep; [|discriminate].
  destruct (forallb point_json_ok ps); [|discriminate].
  destruct (build_table_rows frame) as [rs|] eqn:Er; [|discriminate].
  simpl in H. injection H as <- <- <- <-.
  eexists. exists (map_series_data (group_series ps)).
  split; [reflexivity|]. split; [reflexivity|]. split; [reflexivity|].
  rewrite group_series_grouped.
  split; [|split; [|split]].
  - unfold map_series_data. apply Forall_map. apply Forall_forall.
    now intros [use s] _.
  - unfold map_series_data, grouped. rewrite !length_map.
    now rewrite (points_uses _ _ _ Ep).
  - unfold map_series_data. rewrite map_map.
    rewrite (map_ext _ _ series_points_length), grouped_points_total.
    apply map_result_Forall2, Forall2_length in Ep. unfold len.
    rewrite <- Ep. unfold iterrows. apply length_map.
  - eexists. split; [reflexivity|]. split; reflexivity.
Qed.

End ChartProperties.

Section LegendProperties.

Local Open Scope list_scope.

Lemma dict_get_of_In {V : Type} (d : list (string * V)) (k : string) (v : V) :
  NoDup (map fst d) -> In (k, v) d -> dict_get d k = Some v.
Proof.
  tidy.
  induction d as [|[k' v'] d IH]; simpl; [now intros _ []|].
  intros Hnd [H|H].
  - injection H as -> ->. now rewrite String.eqb_refl.
  - apply NoDup_cons_iff in Hnd. destruct Hnd as [Hk Hd].
    destruct (String.eqb_spec k' k) as [->|_].
    + elim Hk. apply (in_map fst) in H. exact H.
    + now apply IH.
Qed.

Lemma dict_get_In_pair {V : Type} (d : list (string * V)) (k : string) (v : V) :
  dict_get d k = Some v -> In (k, v) d.
Proof.
  tidy.
  induction d as [|[k' v'] d IH]; simpl; [discriminate|].
  destruct (String.eqb_spec k' k) as [->|_].
  - intros H. injection H as <-. now left.
  - intros H. right. now apply IH.
Qed.

Lemma string_app_assoc (a b c : string) :
  ((a ++ b) ++ c = a ++ b ++ c)%string.
Proof.
  tidy.
  induction a as [|x a IH]; simpl; congruence.
Qed.

Lemma palettes_legend :
  Forall (fun palette =>
            NoDup (map fst palette)
            /\ dict_get palette "default" = Some "#6b7280"%string
            /\ S (length (legend_entries palette)) = length palette
            /\ Forall (fun entry => snd entry <> "#6b7280"%string)
                      (legend_entries palette))
         (map snd color_maps).
Proof.
  tidy.
  repeat constructor; simpl; intuition discriminate.
Qed.

(** X10: the legend and the markers agree.  The legend has one swatch
    for every entry of the palette but [default]; a marker whose value
    has a legend entry has the color of that entry, and a marker of any
    other color than the default grey has a legend entry for its value
    with that color.  No legend entry is grey, so the grey markers are
    exactly those without a legend entry. *)
Theorem legend_matches_markers (color_by : string) (row : Row) :
  let colors := colors_for color_by in
  let value := color_value_of color_by row in
  S (length (legend_items colors)) = length colors
  /\ (forall key color, In (key, color) (legend_entries colors) ->
        key <> "default"%string /\ color <> "#6b7280"%string
        /\ exists item, In item (legend_items colors)
                        /\ exists swatch, item = (swatch ++ key)%string)
  /\ (forall color, In (value, color) (legend_entries colors) ->
        marker_color_of color_by row = color)
  /\ (marker_color_of color_by row <> "#6b7280"%string ->
      In (value, marker_color_of color_by row) (legend_entries colors))
  /\ (marker_color_of color_by row = "#6b7280"%string <->
      ~ In value (map fst (legend_entries colors))).
Proof.
  intros colors value.
  pose proof (colors_for_palette color_by) as Hpal. fold colors in Hpal.
  pose proof palettes_legend as Hleg. rewrite Forall_forall in Hleg.
  destruct (Hleg _ Hpal) as [Hnd [Hd [Hlen Hgrey]]].
  rewrite Forall_forall in Hgrey.
  assert (Hitems : legend_items colors
                   = map (fun '(key, color) =>
                            ("<span style=" ++ dq
                             ++ "display:inline-block;width:12px;height:12px;background:"
                             ++ color ++ ";border-radius:50%;margin-right:6px;" ++ dq
                             ++ "></span>" ++ key)%string)
                         (legend_entries colors))
    by reflexivity.
  assert (Hm : marker_color_of color_by row
               = match dict_get colors value with
                 | Some c => c
                 | None => "#6b7280"%string
                 end).
  { unfold marker_color_of. fold colors.
    change (PyStr.upper (py_str (row_get row (PyStr.upper color_by)
                                         (PStr EmptyString))))
      with value.
    unfold dict_get_default. now rewrite Hd. }
  assert (Hentry : forall key color,
             In (key, color) (legend_entries colors) ->
             In (key, color) colors /\ key <> "default"%string).
  { intros key color H. apply filter_In in H. destruct H as [H Hk].
    split; trivial. intros ->. discriminate Hk. }
  assert (Hfound : forall color,
             In (value, color) (legend_entries colors) ->
             dict_get colors value = Some color).
  { intros color H. apply dict_get_of_In; trivial. now apply Hentry. }
  split; [|split; [|split; [|split]]].
  - rewrite Hitems, length_map. exact Hlen.
  - intros key color H. destruct (Hentry _ _ H) as [Hin Hk].
    split; trivial. split; [exact (Hgrey _ H)|].
    eexists. split.
    + rewrite Hitems. apply in_map_iff. exists (key, color). split;
        [reflexivity|exact H].
    + exists ("<span style=" ++ dq
              ++ "display:inline-block;width:12px;height:12px;background:"
              ++ color ++ ";border-radius:50%;margin-right:6px;" ++ dq
              ++ "></span>")%string.
      now rewrite !string_app_assoc.
  - intros color H. now rewrite Hm, (Hfound _ H).
  - intros Hne. rewrite Hm in *.
    destruct (dict_get colors value) as [c|] eqn:E; [|now elim Hne].
    apply filter_In. split; [now apply dict_get_In_pair|].
    destruct (String.eqb_spec value "default") as [Hv|_]; trivial.
    rewrite Hv, Hd in E. injection E as <-. now elim Hne.
  - split.
    + intros Hg Hin. apply in_map_iff in Hin.
      destruct Hin as [[key color] [Hk Hin]]. simpl in Hk. subst key.
      apply (Hgrey _ Hin). simpl. rewrite <- Hg, Hm.
      now rewrite (Hfound _ Hin).
    + intros Hnot. rewrite Hm.
      destruct (dict_get colors value) as [c|] eqn:E; trivial.
      destruct (String.eqb_spec c "#6b7280") as [Hc|Hc]; trivial.
      elim Hnot. apply in_map_iff. exists (value, c). split; trivial.
      apply filter_In. split; [now apply dict_get_In_pair|].
      destruct (String.eqb_spec value "default") as [Hv|_]; trivial.
      rewrite Hv, Hd in E. injection E as <-. now elim Hc.
Qed.

End LegendProperties.

Section CaseAndCounts.

Local Open Scope list_scope.

Lemma to_upper_idem (c : ascii) : PyStr.to_upper (PyStr.to_upper c) = PyStr.to_upper c.
Proof.
  tidy.
  destruct c as [[|] [|] [|] [|] [|] [|] [|] [|]]; reflexivity.
Qed.

Lemma upper_idem (s : string) : PyStr.upper (PyStr.upper s) = PyStr.upper s.
Proof.
  tidy.
  induction s as [|c s IH]; simpl; [reflexivity|].
  now rewrite to_upper_idem, IH.
Qed.

Lemma filter_clause_upper (f : filter_item) :
  filter_clause (upper_filter f) = filter_clause f.
Proof.
  destruct f as [c|[dim|] [[vs|c]|]]; trivial.
  unfold upper_filter, filter_clause. rewrite map_map.
  assert (Hmap : map (fun x => PyStr.upper (py_str (upper_cell x))) vs
                 = map (fun v => PyStr.upper (py_str v)) vs).
  { apply map_ext. intros [|s|z|x obj|z]; simpl; trivial. apply upper_idem. }
  now rewrite Hmap.
Qed.

(** X11: the filter values are matched without regard to case: writing
    the str values of every filter list in upper case leaves the query
    as it is, and the values of the query are in upper case already
    (upper-casing them again changes nothing). *)
Theorem filter_values_ignore_case (filters : list filter_item) :
  build_query (map upper_filter filters) = build_query filters
  /\ (forall dim vs,
        map (fun v => PyStr.upper (py_str v)) vs
        = map (fun v => PyStr.upper (PyStr.upper (py_str v))) vs
        /\ filter_clause (FilterDict (Some dim) (Some (ValList (map upper_cell vs))))
           = filter_clause (FilterDict (Some dim) (Some (ValList vs)))).
Proof.
  split.
  - unfold build_query. rewrite !fold_add_filter, map_map. do 2 f_equal.
    apply map_ext. apply filter_clause_upper.
  - intros dim vs. split.
    + apply map_ext. intros v. now rewrite upper_idem.
    + apply (filter_clause_upper (FilterDict (Some dim) (Some (ValList vs)))).
Qed.

Lemma list_sum_Permutation (l l' : list nat) :
  Permutation l l' -> list_sum l = list_sum l'.
Proof.
  tidy.
  induction 1; simpl; lia.
Qed.

Lemma value_counts_total (col : list cell) :
  list_sum (map snd (value_counts col)) = length (filter notna col).
Proof.
  tidy.
  unfold value_counts. set (present := filter notna col).
  rewrite (list_sum_Permutation _ _
             (Permutation_map snd (sort_desc_Permutation _))).
  rewrite map_map. simpl.
  rewrite <- (Permutation_length
                (concat_filter_Permutation (fun c : cell => c)
                   (distinct present) present (distinct_NoDup _)
                   (fun c Hc =>
                      eq_trans (distinct_mem _ _)
                               (proj2 (mem_key_true _ _)
                                      (in_map key_of _ _ Hc))))).
  rewrite length_concat, map_map. reflexivity.
Qed.

(** X12: the counts of the breakdown by use add up to the number of
    records whose BUILDING_USE is not missing; so they add up to the
    number in ["Showing N facilities"] exactly when no record has a
    missing BUILDING_USE, and to less otherwise. *)
Theorem use_counts_add_up (frame : DataFrame) :
  let uses := column frame "BUILDING_USE" in
  let total := list_sum (map snd (value_counts uses)) in
  total = length (filter notna uses)
  /\ (total <= len frame)%nat
  /\ (total = len frame <-> Forall (fun c => notna c = true) uses).
Proof.
  tidy.
  intros uses total. subst total. rewrite value_counts_total.
  assert (Hlen : length uses = len frame).
  { unfold uses, column, len, iterrows. now rewrite !length_map. }
  rewrite <- Hlen. clear Hlen. split; [reflexivity|].
  induction uses as [|c uses [IHle IHiff]]; simpl.
  - repeat split; trivial.
  - destruct (notna c) eqn:E; simpl.
    + split; [lia|]. split.
      * intros H. constructor; trivial. apply IHiff. lia.
      * intros H. inversion H; subst. f_equal. now apply IHiff.
    + split; [lia|]. split.
      * intros H. lia.
      * intros H. inversion H; subst. congruence.
Qed.

Lemma distinct_constant (c : cell) (l : list cell) :
  l <> [] -> Forall (fun x => x = c) l -> distinct l = [c].
Proof.
  tidy.
  induction l as [|x l IH] using rev_ind; [now intros H|].
  intros _ H. apply Forall_app in H. destruct H as [Hl Hx].
  inversion Hx; subst. rewrite distinct_snoc.
  destruct l as [|y l]; [reflexivity|].
  rewrite IH; trivial; [|discriminate]. simpl. now rewrite key_eqb_refl.
Qed.

(** X13: a frame that has no BUILDING_USE column gives every record the
    building use [''], so that all the records are in one series, which
    is labelled with the empty text and has the color of the first
    record; the summary is then the count sentence alone. *)
Theorem no_use_column_one_series (color_by : string) (frame : DataFrame)
  (map_points : list Point.t) :
  has_column frame "BUILDING_USE" = false ->
  len frame <> 0%nat ->
  build_map_points color_by frame = Ok map_points ->
  group_series map_points
  = [ (PStr EmptyString,
       {| Series.name := PStr EmptyString;
          Series.color := match map_points with
                          | p :: _ => Point.color p
                          | [] => EmptyString
                          end;
          Series.data := map datum_of map_points |}) ]
  /\ summary_of frame
     = ("Showing " ++ PyStr.of_nat (len frame)
        ++ " facilities on the map. ")%string.
Proof.
  intros Hcol Hlen Hpoints. split.
  - assert (Huse : Forall (fun x => x = PStr EmptyString)
                          (map Point.building_use map_points)).
    { rewrite (points_uses _ _ _ Hpoints). apply Forall_map, Forall_forall.
      intros row Hrow. unfold building_use_of, row_get.
      rewrite (iterrows_index _ _ Hrow).
      now rewrite (lookup_absent _ _ _ Hcol). }
    assert (Hne : map Point.building_use map_points <> []).
    { apply map_result_Forall2, Forall2_length in Hpoints.
      unfold len in Hlen. unfold iterrows in Hpoints.
      rewrite length_map in Hpoints.
      destruct map_points; [simpl in Hpoints; congruence | discriminate]. }
    rewrite group_series_grouped. unfold grouped.
    rewrite (distinct_constant _ _ Hne Huse). simpl. do 2 f_equal.
    unfold series_for. 
    assert (Hall : forall p, In p map_points ->
                             same_use (PStr EmptyString) p = true).
    { intros p Hp. unfold same_use. rewrite Forall_forall in Huse.
      rewrite (Huse (Point.building_use p)); [apply key_eqb_refl|].
      now apply in_map. }
    f_equal.
    + destruct map_points as [|p ps]; trivial. simpl.
      now rewrite (Hall p (or_introl eq_refl)).
    + f_equal. clear -Hall. induction map_points as [|p ps IH]; trivial.
      simpl. rewrite (Hall p (or_introl eq_refl)). f_equal.
      apply IH. intros q Hq. apply Hall. now right.
  - unfold summary_of. now rewrite Hcol.
Qed.

End CaseAndCounts.

Section MoreEdgeCases.

Local Open Scope list_scope.

Lemma upper_app (a b : string) :
  PyStr.upper (a ++ b) = (PyStr.upper a ++ PyStr.upper b)%string.
Proof.
  tidy.
  induction a as [|c a IH]; simpl; congruence.
Qed.

(** X14: the filter values are not escaped.  A value that contains the
    separator [', '] is read by the data source as two values: the
    filter with the one value [a', 'b] and the filter with the two
    values [a] and [b] give the same query. *)
Theorem filter_values_are_not_escaped (dim : cell) (a b : string)
  (before after : list filter_item) :
  build_query
    (before
     ++ FilterDict (Some dim) (Some (ValList [PStr (a ++ "', '" ++ b)]))
     :: after)
  = build_query
      (before
       ++ FilterDict (Some dim) (Some (ValList [PStr a; PStr b])) :: after).
Proof.
  unfold build_query. rewrite !fold_add_filter, !map_app. do 3 f_equal.
  simpl. now rewrite !upper_app.
Qed.

(** The label of a series is the building-use cell of the first point
    that has its dict key. *)
Lemma label_of_first_point (map_points : list Point.t) (use : cell) :
  In use (distinct (map Point.building_use map_points)) ->
  exists first,
    find (same_use use) map_points = Some first
    /\ Point.building_use first = use.
Proof.
  tidy.
  induction map_points as [|p ps IH] using rev_ind; [now intros []|].
  rewrite map_app. simpl. rewrite distinct_snoc, find_snoc.
  assert (Hold : In use (distinct (map Point.building_use ps)) ->
                 exists first,
                   match find (same_use use) ps with
                   | Some x => Some x
                   | None => if same_use use p then Some p else None
                   end = Some first
                   /\ Point.building_use first = use).
  { intros H. destruct (IH H) as [first [-> Hfirst]]. eauto. }
  destruct (mem_key (Point.building_use p)
                    (distinct (map Point.building_use ps))) eqn:E; trivial.
  rewrite in_app_iff. intros [H|[<-|[]]]; [auto|].
  rewrite distinct_mem in E.
  destruct (find (same_use (Point.building_use p)) ps) as [q|] eqn:F.
  - apply find_some in F. destruct F as [Hq Hsame].
    assert (Hmem : mem_key (Point.building_use p)
                           (map Point.building_use ps) = true).
    { apply existsb_exists. exists (Point.building_use q).
      split; [now apply in_map | exact Hsame]. }
    congruence.
  - unfold same_use. rewrite key_eqb_refl. eauto.
Qed.

(** X15: no series is empty: every series holds the record that created
    it, as its first point; that record is the first one whose
    building-use cell has the dict key of the series (an equal value,
    or the same NaN object), its building-use cell is the label of the
    series, and its color is the color of the series. *)
Theorem series_are_not_empty (map_points : list Point.t) (use : cell)
  (s : Series.t) :
  In (use, s) (group_series map_points) ->
  exists first rest,
    find (same_use use) map_points = Some first
    /\ Series.data s = datum_of first :: rest
    /\ Series.color s = Point.color first
    /\ key_eqb use (Point.building_use first) = true
    /\ Point.building_use first = use
    /\ Series.name s = use.
Proof.
  tidy.
  rewrite group_series_grouped. intros H. unfold grouped in H.
  apply in_map_iff in H. destruct H as [k [Hk Hin]]. injection Hk as -> <-.
  destruct (label_of_first_point _ _ Hin) as [p [Hp Huse]].
  exists p. simpl. rewrite Hp.
  assert (Hfilter : exists rest,
             filter (same_use use) map_points = p :: rest).
  { clear Hin. induction map_points as [|q ps IH]; [discriminate|].
    simpl in Hp |- *. destruct (same_use use q).
    - injection Hp as ->. eauto.
    - now apply IH. }
  destruct Hfilter as [rest Hrest]. exists (map datum_of rest).
  rewrite Hrest. repeat split; trivial. apply find_some in Hp. apply Hp.
Qed.

Lemma value_counts_all_missing (col : list cell) :
  Forall (fun c => notna c = false) col -> value_counts col = [].
Proof.
  tidy.
  intros H. unfold value_counts.
  replace (filter notna col) with (@nil cell); trivial.
  induction H as [|c col Hc _ IH]; trivial. simpl. now rewrite Hc.
Qed.

(** X16: when the frame has the BUILDING_USE column but every record's
    building use is missing, the breakdown is empty and the summary ends
    in ["By use: ."]. *)
Theorem summary_without_uses (frame : DataFrame) :
  has_column frame "BUILDING_USE" = true ->
  Forall (fun c => notna c = false) (column frame "BUILDING_USE") ->
  summary_of frame
  = ("Showing " ++ PyStr.of_nat (len frame)
     ++ " facilities on the map. By use: .")%string.
Proof.
  intros Hcol Hmissing. unfold summary_of.
  rewrite Hcol, (value_counts_all_missing _ Hmissing). simpl.
  now rewrite !string_app_assoc.
Qed.

End MoreEdgeCases.
(** ** Content and identity of the cells *)

Section Content.

Local Open Scope list_scope.









(** *** Rows and frames *)









(** *** Map points and table rows *)








(** *** The tally and the summary *)











(** *** The series and the chart *)





(** *** The transformation *)






End Content.

End Skill.

(** ** The statements on the example data *)

Section Examples.

Local Open Scope list_scope.

(** C1 on the three records of scenario D: with the markers colored by
    state, the series are still ACUTE and ADMIN. *)
Lemma series_partition_witness :
  let map_points := get_ok [] (build_map_points example_repr example_parse "state" scenario_D) in
  build_map_points example_repr example_parse "state" scenario_D = Ok map_points
  /\ map fst (group_series map_points) = [PStr "ACUTE"; PStr "ADMIN"].
Proof.
  split; [reflexivity|].
  exact (proj1 (series_partition_by_building_use
                  example_repr example_parse "state" scenario_D
                  (get_ok [] (build_map_points example_repr example_parse "state" scenario_D)) eq_refl)).
Defined.

(** C9 on scenario D colored by state: the ACUTE series has the color of
    Massachusetts, the state of its first record, though its second
    record is in New Hampshire. *)
Lemma series_color_witness :
  let map_points := get_ok [] (build_map_points example_repr example_parse "state" scenario_D) in
  let acute := series_for map_points (PStr "ACUTE") in
  build_map_points example_repr example_parse "state" scenario_D = Ok map_points
  /\ In (PStr "ACUTE", acute) (group_series map_points)
  /\ exists row,
       find (fun r => key_eqb (PStr "ACUTE") (building_use_of r))
            (iterrows scenario_D) = Some row
       /\ Series.color acute = marker_color_of example_repr "state" row.
Proof.
  split; [reflexivity|]. split; [left; reflexivity|].
  exact (proj1 (series_color_of_first_record
                  example_repr example_parse "state" scenario_D
                  (get_ok [] (build_map_points example_repr example_parse "state" scenario_D)) eq_refl
                  (PStr "ACUTE")
                  (series_for (get_ok [] (build_map_points example_repr example_parse "state" scenario_D)) (PStr "ACUTE"))
                  (or_introl eq_refl))).
Defined.


(** C7 on scenario D with a layout engine that raises. *)
Lemma render_failure_witness :
  let layout_json :=
    get_ok (OList [])
           (layout_for example_repr example_parse "building_use" scenario_D) in
  fetch example_database (client_of scenario_D)
        (build_query example_repr (filters_of default_parameters))
  = Ok scenario_D
  /\ len scenario_D <> 0%nat
  /\ layout_for example_repr example_parse (color_by_of default_parameters)
                scenario_D = Ok layout_json
  /\ failing_layout layout_json (ODict []) = Raises "boom"
  /\ facility_map example_repr example_parse example_database
    (client_of scenario_D) failing_layout default_parameters
     = Ok {| final_prompt :=
               "Showing 3 facilities on the map. By use: 2 ACUTE, 1 ADMIN.";
             narrative := None;
             visualizations :=
               [ {| title := "Facility Map";
                    layout := "<div>Error rendering layout: boom</div>" |} ] |}.
Proof.
  assert (Hlen : len scenario_D <> 0%nat) by (vm_compute; lia).
  split; [reflexivity|]. split; [exact Hlen|].
  split; [reflexivity|]. split; [reflexivity|].
  exact (proj1 (render_failure_absorbed
                  example_repr example_parse example_database
                  (client_of scenario_D) failing_layout default_parameters
                  scenario_D _ "boom" eq_refl Hlen eq_refl eq_refl)).
Defined.


(** C10 on a row of a frame without the SQUARE_FEET column. *)
Lemma missing_square_feet_witness :
  square_feet_cell no_square_feet_row = None
  /\ exists r, table_row no_square_feet_row = Ok r
               /\ TableRow.sq_ft r = "0"%string.
Proof.
  split; [reflexivity|].
  exact (proj1 (missing_square_feet_is_zero
                  example_repr example_parse no_square_feet_row eq_refl)).
Defined.

(** C1 as it is worded fails on records whose building use is NaN in
    two float objects: they get a series each, two series, while the
    records have one building-use value. *)
Lemma nan_uses_get_a_series_each :
  let map_points :=
    get_ok [] (build_map_points example_repr example_parse "building_use"
                                nan_uses_apart) in
  let uses := map building_use_of (iterrows nan_uses_apart) in
  build_map_points example_repr example_parse "building_use" nan_uses_apart
  = Ok map_points
  /\ uses = [ PFloat S754_nan 7; PFloat S754_nan 8 ]
  /\ length (group_series map_points) = 2%nat
  /\ length (distinct_values uses) = 1%nat
  /\ length (group_series map_points) <> length (distinct_values uses).
Proof. repeat split. discriminate. Qed.

(** C9 as it is worded fails on the same records colored by state: the
    series of the second record has the color of New Hampshire, not the
    color of the first record that has its building-use value, which is
    in Massachusetts. *)
Lemma nan_series_has_its_own_color :
  let map_points :=
    get_ok [] (build_map_points example_repr example_parse "state"
                                nan_uses_apart) in
  build_map_points example_repr example_parse "state" nan_uses_apart
  = Ok map_points
  /\ series_colors (group_series map_points)
     = [ (PFloat S754_nan 7, "#3b82f6"%string);
         (PFloat S754_nan 8, "#10b981"%string) ]
  /\ exists first,
       find (fun row => value_eqb (PFloat S754_nan 8) (building_use_of row))
            (iterrows nan_uses_apart) = Some first
       /\ row_get first "STATE" PNone = PStr "MA"
       /\ marker_color_of example_repr "state" first = "#3b82f6"%string
       /\ marker_color_of example_repr "state" first <> "#10b981"%string.
Proof.
  split; [reflexivity|]. split; [reflexivity|].
  eexists. split; [reflexivity|]. split; [reflexivity|].
  split; [reflexivity|discriminate].
Qed.



(** C2 as it is worded fails on a filter whose list is empty: the query
    gets the clause [UPPER(STATE) IN ('')], one clause, while no filter
    has a non-empty list. *)
Lemma empty_list_filter_adds_clause :
  build_query example_repr empty_list_filter
  = (sql_base ++ " AND UPPER(STATE) IN ('')")%string
  /\ length (clauses example_repr empty_list_filter) = 1%nat
  /\ length (filter has_nonempty_list_val empty_list_filter) = 0%nat
  /\ length (clauses example_repr empty_list_filter)
     <> length (filter has_nonempty_list_val empty_list_filter).
Proof. repeat split. discriminate. Qed.

(** C3 as it is worded fails after the fetch: a frame whose labels are
    in lower case raises [KeyError] at [row['LATITUDE']], a frame whose
    SQUARE_FEET is text raises [ValueError] at the format, and a frame
    whose SQUARE_FEET is a [numpy.int64] raises [TypeError] at the JSON
    dump of the chart; all three reach the caller. *)
Lemma transformation_exception_propagates :
  facility_map example_repr example_parse example_database
    (client_of lower_case_frame) blank_layout default_parameters
  = Raise (KeyError "LATITUDE")
  /\ facility_map example_repr example_parse example_database
    (client_of text_square_feet_frame) blank_layout default_parameters
     = Raise ValueError
  /\ facility_map example_repr example_parse example_database
    (client_of int64_square_feet_frame) blank_layout default_parameters
     = Raise TypeError.
Proof. repeat split. Qed.

(** C6 as it is worded fails on a missing key: the text is ["0"], not
    ["N/A"]. *)
Lemma missing_square_feet_not_NA :
  exists r, table_row no_square_feet_row = Ok r
            /\ TableRow.sq_ft r = "0"%string
            /\ TableRow.sq_ft r <> "N/A"%string.
Proof.
  eexists. split; [reflexivity|]. split; [reflexivity|discriminate].
Qed.

(** The scenarios of the specification. *)

Example scenario_A_no_rows :
  facility_map example_repr example_parse example_database
    (client_of empty_frame) blank_layout default_parameters
  = Ok {| final_prompt := "No facilities found matching the criteria.";
          narrative := Some "No facility data available."%string;
          visualizations := [] |}.
Proof. reflexivity. Qed.

Example scenario_B_fetch_fails :
  facility_map example_repr example_parse example_database
    broken_client blank_layout default_parameters = Ok fetch_failed
  /\ facility_map example_repr example_parse example_database
       failing_client blank_layout default_parameters = Ok fetch_failed.
Proof. split; reflexivity. Qed.

Example scenario_C_one_series :
  let map_points :=
    get_ok [] (build_map_points example_repr example_parse "building_use"
                                scenario_C) in
  series_colors (group_series map_points) = [ (PStr "ACUTE", "#ef4444"%string) ]
  /\ map (fun item => length (Series.data (snd item))) (group_series map_points)
     = [ 2%nat ]
  /\ map TableRow.sq_ft (get_ok [] (build_table_rows scenario_C))
     = [ "52,000"%string; "N/A"%string ]
  /\ summary_of example_repr scenario_C
     = "Showing 2 facilities on the map. By use: 2 ACUTE."%string.
Proof. repeat split. Qed.

Example scenario_D_two_series :
  let map_points :=
    get_ok [] (build_map_points example_repr example_parse "state"
                                scenario_D) in
  series_colors (group_series map_points)
  = [ (PStr "ACUTE", "#3b82f6"%string); (PStr "ADMIN", "#3b82f6"%string) ]
  /\ map Point.color map_points
     = [ "#3b82f6"%string; "#10b981"%string; "#3b82f6"%string ]
  /\ map (fun item => length (Series.data (snd item))) (group_series map_points)
     = [ 2%nat; 1%nat ]
  /\ map TableRow.sq_ft (get_ok [] (build_table_rows scenario_D))
     = [ "12,345"%string; "N/A"%string; "1,000,000"%string ].
Proof. repeat split. Qed.

Example format_examples :
  format_comma_0f (S754_finite false 5 (-1)) = "2"%string          (* 2.5 *)
  /\ format_comma_0f (S754_finite true 7 (-1)) = "-4"%string       (* -3.5 *)
  /\ format_comma_0f (S754_zero true) = "-0"%string
  /\ format_comma_0f (S754_infinity true) = "-inf"%string
  /\ format_cell_comma_0f (PInt 1234567) = Ok "1,234,567"%string
  /\ format_cell_comma_0f (PInt (2 ^ 1024)) = Raise OverflowError
  /\ format_cell_comma_0f (PStr "12,345") = Raise ValueError.
Proof. repeat split. Qed.

Example key_examples :
  key_eqb (PInt 4) (PFloat (S754_finite false 1 2) 1) = true
  /\ key_eqb (PStr "ACUTE") (PStr "acute") = false
  /\ distinct [PStr "ADMIN"; PStr "ACUTE"; PNone; PStr "ADMIN"]
     = [PStr "ADMIN"; PStr "ACUTE"; PNone]
  /\ value_counts [PStr "ADMIN"; PStr "ACUTE"; PNone; PStr "ACUTE"]
     = [(PStr "ACUTE", 2%nat); (PStr "ADMIN", 1%nat)]
  /\ value_counts [PStr "ADMIN"; PStr "ACUTE"; PStr "ADMIN"; PStr "ACUTE"]
     = [(PStr "ADMIN", 2%nat); (PStr "ACUTE", 2%nat)]
  /\ key_eqb (PFloat S754_nan 7) (PFloat S754_nan 7) = true
  /\ key_eqb (PFloat S754_nan 7) (PFloat S754_nan 8) = false
  /\ key_eqb (PInt64 4) (PInt 4) = true.
Proof. repeat split. Qed.

Example query_example :
  build_query example_repr
    [ FilterDict (Some (PStr "STATE")) (Some (ValList [PStr "ma"; PStr "nh"]));
      NotDict (PStr "state");
      FilterDict (Some (PStr "OWN_LEASE")) (Some (ValOther (PStr "own"))) ]
  = (sql_base ++ " AND UPPER(STATE) IN ('MA', 'NH')")%string.
Proof. reflexivity. Qed.

(** The further properties on the example data. *)

(** X1 on a frame without rows, with a layout engine that would raise. *)
Lemma empty_frame_witness :
  fetch example_database (client_of empty_frame)
        (build_query example_repr (filters_of default_parameters))
  = Ok empty_frame
  /\ len empty_frame = 0%nat
  /\ facility_map example_repr example_parse example_database
       (client_of empty_frame) failing_layout default_parameters
     = Ok no_facilities.
Proof.
  split; [reflexivity|]. split; [reflexivity|].
  exact (proj1 (empty_frame_short_circuits
                  example_repr example_parse example_database
                  (client_of empty_frame) failing_layout default_parameters
                  empty_frame eq_refl eq_refl)).
Defined.

(** X2 on scenario D, which the transformation accepts. *)
Lemma returns_iff_frame_ok_witness :
  fetch example_database (client_of scenario_D)
        (build_query example_repr (filters_of default_parameters))
  = Ok scenario_D
  /\ len scenario_D <> 0%nat
  /\ frame_ok example_parse scenario_D = true
  /\ exists output,
       facility_map example_repr example_parse example_database
         (client_of scenario_D) blank_layout default_parameters = Ok output.
Proof.
  assert (Hlen : len scenario_D <> 0%nat) by (vm_compute; lia).
  split; [reflexivity|]. split; [exact Hlen|]. split; [reflexivity|].
  exact (proj2 (proj1 (returns_iff_frame_ok
                         example_repr example_parse example_database
                         (client_of scenario_D) blank_layout
                         default_parameters scenario_D eq_refl Hlen))
               eq_refl).
Defined.

(** X3 on a frame whose second row has no latitude and a text square
    footage: the [TypeError] of [float(None)] reaches the caller. *)
Lemma first_bad_row_witness :
  let rows := iterrows bad_second_row_frame in
  let first := nth 0 rows {| index := []; values := [] |} in
  let second := nth 1 rows {| index := []; values := [] |} in
  rows = [first] ++ second :: []
  /\ map_point example_repr example_parse
               (color_by_of default_parameters) second = Raise TypeError
  /\ facility_map example_repr example_parse example_database
       (client_of bad_second_row_frame) blank_layout default_parameters
     = Raise TypeError.
Proof.
  split; [reflexivity|]. split; [reflexivity|].
  refine (proj1 (first_bad_row_raises
                   example_repr example_parse example_database
                   (client_of bad_second_row_frame) blank_layout
                   default_parameters bad_second_row_frame
                   [nth 0 (iterrows bad_second_row_frame)
                        {| index := []; values := [] |}]
                   []
                   (nth 1 (iterrows bad_second_row_frame)
                        {| index := []; values := [] |})
                   TypeError eq_refl eq_refl _ eq_refl)).
  intros r [<-|[]]. eexists. reflexivity.
Defined.

(** X4 on a frame whose only column is the building name. *)
Lemma missing_coordinate_column_witness :
  fetch example_database (client_of names_only_frame)
        (build_query example_repr (filters_of default_parameters))
  = Ok names_only_frame
  /\ len names_only_frame <> 0%nat
  /\ has_column names_only_frame "LATITUDE" = false
  /\ facility_map example_repr example_parse example_database
       (client_of names_only_frame) blank_layout default_parameters
     = Raise (KeyError "LATITUDE").
Proof.
  assert (Hlen : len names_only_frame <> 0%nat) by (vm_compute; lia).
  split; [reflexivity|]. split; [exact Hlen|]. split; [reflexivity|].
  exact (proj1 (missing_coordinate_column_raises
                  example_repr example_parse example_database
                  (client_of names_only_frame) blank_layout
                  default_parameters names_only_frame eq_refl Hlen)
               eq_refl).
Defined.

(** X5 on scenario D. *)
Lemma table_rows_follow_records_witness :
  let table_rows := get_ok [] (build_table_rows scenario_D) in
  build_table_rows scenario_D = Ok table_rows
  /\ length table_rows = len scenario_D.
Proof.
  split; [reflexivity|].
  exact (proj1 (table_rows_follow_records
                  scenario_D (get_ok [] (build_table_rows scenario_D))
                  eq_refl)).
Defined.

(** X6 on scenario D. *)
Lemma map_points_follow_records_witness :
  let map_points :=
    get_ok [] (build_map_points example_repr example_parse "state"
                                scenario_D) in
  build_map_points example_repr example_parse "state" scenario_D
  = Ok map_points
  /\ length map_points = len scenario_D.
Proof.
  split; [reflexivity|].
  exact (proj1 (map_points_follow_records
                  example_repr example_parse "state" scenario_D
                  (get_ok [] (build_map_points example_repr example_parse
                                               "state" scenario_D))
                  eq_refl)).
Defined.

(** X8 on the second row of scenario D. *)
Lemma table_cells_of_row_witness :
  let table_rows := get_ok [] (build_table_rows scenario_D) in
  let row := nth 1 table_rows
                 {| TableRow.name := PNone; TableRow.city := PNone;
                    TableRow.state := PNone; TableRow.type := PNone;
                    TableRow.use := PNone; TableRow.ownership := PNone;
                    TableRow.sq_ft := EmptyString |} in
  nth_error table_rows 1 = Some row
  /\ firstn 7 (skipn (12 + 7 * 1)
                     (layout_children
                        (layout_of scenario_D "state" (OList []) table_rows)))
     = table_cells 1 row.
Proof.
  split; [reflexivity|].
  exact (proj1 (table_cells_of_row
                  scenario_D "state" (OList [])
                  (get_ok [] (build_table_rows scenario_D)) 1 _ eq_refl)).
Defined.

(** X9 on scenario D colored by state. *)
Lemma chart_holds_every_record_witness :
  let products :=
    get_ok ([], OList [], [], OList [])
           (transform example_repr example_parse "state" scenario_D) in
  transform example_repr example_parse "state" scenario_D = Ok products
  /\ exists background point_series,
       chart_series (snd (fst (fst products))) = background :: point_series
       /\ list_sum (map (fun s => length (series_points s)) point_series)
          = len scenario_D.
Proof.
  split; [reflexivity|].
  destruct (chart_holds_every_record
              example_repr example_parse "state" scenario_D
              _ _ _ _ eq_refl)
    as [background [point_series [H1 [_ [_ [_ [_ [H6 _]]]]]]]].
  exists background, point_series. split; assumption.
Defined.

(** X13 on a frame without the BUILDING_USE column. *)
Lemma no_use_column_witness :
  let map_points :=
    get_ok [] (build_map_points example_repr example_parse "building_use"
                                no_use_frame) in
  has_column no_use_frame "BUILDING_USE" = false
  /\ len no_use_frame <> 0%nat
  /\ build_map_points example_repr example_parse "building_use" no_use_frame
     = Ok map_points
  /\ map fst (group_series map_points) = [ PStr EmptyString ]
  /\ summary_of example_repr no_use_frame
     = "Showing 2 facilities on the map. "%string.
Proof.
  assert (Hlen : len no_use_frame <> 0%nat) by (vm_compute; lia).
  split; [reflexivity|]. split; [exact Hlen|]. split; [reflexivity|].
  destruct (no_use_column_one_series
              example_repr example_parse "building_use" no_use_frame
              (get_ok [] (build_map_points example_repr example_parse
                                           "building_use" no_use_frame))
              eq_refl Hlen eq_refl) as [Hseries Hsummary].
  split; [exact (f_equal (map fst) Hseries) | exact Hsummary].
Defined.

(** X15 on the ADMIN series of scenario D. *)
Lemma series_are_not_empty_witness :
  let map_points :=
    get_ok [] (build_map_points example_repr example_parse "state"
                                scenario_D) in
  let admin := series_for map_points (PStr "ADMIN") in
  In (PStr "ADMIN", admin) (group_series map_points)
  /\ exists first rest,
       find (same_use (PStr "ADMIN")) map_points = Some first
       /\ Series.data admin = datum_of first :: rest.
Proof.
  assert (Hin : In (PStr "ADMIN",
                    series_for
                      (get_ok [] (build_map_points example_repr example_parse
                                                   "state" scenario_D))
                      (PStr "ADMIN"))
                   (group_series
                      (get_ok [] (build_map_points example_repr example_parse
                                                   "state" scenario_D))))
    by (right; left; reflexivity).
  split; [exact Hin|].
  destruct (series_are_not_empty _ _ _ Hin)
    as [first [rest [H1 [H2 _]]]].
  exists first, rest. split; assumption.
Defined.

(** X16 on a frame whose two building uses are None and NaN. *)
Lemma summary_without_uses_witness :
  has_column missing_use_frame "BUILDING_USE" = true
  /\ summary_of example_repr missing_use_frame
     = "Showing 2 facilities on the map. By use: ."%string.
Proof.
  split; [reflexivity|].
  apply (summary_without_uses example_repr missing_use_frame eq_refl).
  vm_compute. repeat constructor.
Defined.

(** X17 on a frame whose square footage is a [numpy.int64]. *)
Lemma json_dump_raises_witness :
  let row := nth 0 (iterrows int64_square_feet_frame)
                 {| index := []; values := [] |} in
  In row (iterrows int64_square_feet_frame)
  /\ forallb json_ok (chart_cells row) = false
  /\ (exists r, table_row row = Ok r /\ TableRow.sq_ft r = "52,000"%string)
  /\ facility_map example_repr example_parse example_database
       (client_of int64_square_feet_frame) blank_layout default_parameters
     = Raise TypeError.
Proof.
  split; [left; reflexivity|]. split; [reflexivity|].
  split; [eexists; split; reflexivity|].
  exact (proj1 (json_dump_raises
                  example_repr example_parse example_database
                  (client_of int64_square_feet_frame) blank_layout
                  default_parameters int64_square_feet_frame
                  (get_ok [] (build_map_points
                                example_repr example_parse
                                (color_by_of default_parameters)
                                int64_square_feet_frame))
                  (nth 0 (iterrows int64_square_feet_frame)
                       {| index := []; values := [] |})
                  eq_refl eq_refl (or_introl eq_refl) eq_refl)).
Defined.

End Examples.
